(** * MinerU: the dataset / page abstraction and the pipe-result exporters

    A shallow embedding of [magic_pdf/data/dataset.py] and
    [magic_pdf/pipe/operators.py].

    - Python values the two files look into (the analysis result, a page's
      attribute table) are an inductive type [pyval]; a [dict] keeps its
      insertion order, so it is an association list.
    - Python exceptions are an inductive type [PyExn]; code that can raise
      returns [Res A = PyExn + A].
    - Code that talks to the outside (the rendering engine, the content
      assembler, the writer, the file system) runs in the monad [M], a state
      and error monad over a [World]: the file system and the ordered log of
      calls made to external collaborators.
    - The collaborators themselves (PyMuPDF, [union_make], [json.dumps],
      the bbox renderers, [JsonCompressor], the classifier) are the fields
      of the class [Externals]; every theorem holds for all of them. *)

From Stdlib Require Import ZArith List String Ascii Bool Lia.
From stdpp Require Import base gmap strings list.

Set Warnings "-register-all".

(** ** Python values, exceptions and sequence indexing *)

Module Py.

Definition bytes := list Byte.byte.

(** The built-in exceptions the two files can run into.  [ExternalError]
    stands for whatever an external collaborator raises on its own. *)
Inductive PyExn : Type :=
| IndexError
| KeyError (key : string)
| TypeError (msg : string)
| AttributeError (name : string)
| FileNotFoundError (path : string)
| FileExistsError (path : string)
| NotADirectoryError (path : string)
| RecursionError
| ExternalError (msg : string).

Definition Res (A : Type) : Type := (PyExn + A)%type.

Definition is_ok {A} (r : Res A) : bool :=
  match r with inr _ => true | inl _ => false end.

(** Values as far as the code inspects them.  [PyOpaque] is an object the
    code only passes around (a bound method, a rectangle, ...). *)
Inductive pyval : Type :=
| PyNone
| PyBool (b : bool)
| PyInt (z : Z)
| PyStr (s : string)
| PyList (items : list pyval)
| PyDict (items : list (string * pyval))
| PyOpaque (descr : string).

(** [d[key]] on the items of a dict. *)
Fixpoint dict_get (items : list (string * pyval)) (key : string)
  : option pyval :=
  match items with
  | [] => None
  | (k, v) :: rest => if String.eqb k key then Some v else dict_get rest key
  end.

(** [obj[key]] for a string key: a dict looks the key up and raises
    [KeyError] when it is absent; nothing else accepts a string
    subscript. *)
Definition getitem_str (obj : pyval) (key : string) : Res pyval :=
  match obj with
  | PyDict items =>
      match dict_get items key with
      | Some v => inr v
      | None => inl (KeyError key)
      end
  | PyList _ => inl (TypeError "list indices must be integers or slices, not str")
  | PyStr _ => inl (TypeError "string indices must be integers, not 'str'")
  | _ => inl (TypeError "object is not subscriptable")
  end.

(** [l[i]] for an integer [i]: a negative index counts from the end, and
    what is still out of range raises [IndexError]. *)
Definition list_getitem {A} (l : list A) (i : Z) : Res A :=
  let n := Z.of_nat (length l) in
  let j := if (i <? 0)%Z then (i + n)%Z else i in
  if ((j <? 0) || (n <=? j))%Z then inl IndexError
  else match l !! Z.to_nat j with
       | Some x => inr x
       | None => inl IndexError
       end.

(** [hasattr] in terms of [getattr]: only [AttributeError] means "no". *)
Definition hasattr_of {A} (r : Res A) : Res bool :=
  match r with
  | inr _ => inr true
  | inl (AttributeError _) => inr false
  | inl e => inl e
  end.

(** The attributes every instance of a user class gets from [object] and
    from the class machinery, and the ones a class deriving from [ABC]
    adds. *)
Definition object_attrs : list string :=
  [ "__class__"; "__delattr__"; "__dict__"; "__dir__"; "__doc__";
    "__eq__"; "__format__"; "__ge__"; "__getattribute__"; "__getstate__";
    "__gt__"; "__hash__"; "__init__"; "__init_subclass__"; "__le__";
    "__lt__"; "__module__"; "__ne__"; "__new__"; "__reduce__";
    "__reduce_ex__"; "__repr__"; "__setattr__"; "__sizeof__"; "__str__";
    "__subclasshook__"; "__weakref__" ]%string.

Definition abc_attrs : list string :=
  [ "__abstractmethods__"; "__slots__"; "_abc_impl" ]%string.

Definition mem_str (x : string) (l : list string) : bool :=
  existsb (String.eqb x) l.

End Py.
Export Py.

(** ** [os.path] on POSIX paths *)

Module PosixPath.

Definition sep : ascii := "/"%char.

(** [(p[:i], p[i:])] with [i = p.rfind('/') + 1]. *)
Fixpoint rsplit_sep (p : string) : string * string :=
  match p with
  | EmptyString => (EmptyString, EmptyString)
  | String c s =>
      let '(h, t) := rsplit_sep s in
      match h with
      | EmptyString =>
          if Ascii.eqb c sep then (String c EmptyString, s)
          else (EmptyString, String c s)
      | _ => (String c h, t)
      end
  end.

(** [head == '/' * len(head)] *)
Fixpoint all_sep (s : string) : bool :=
  match s with
  | EmptyString => true
  | String c s' => Ascii.eqb c sep && all_sep s'
  end.

(** [head.rstrip('/')] *)
Fixpoint rstrip_sep (s : string) : string :=
  match s with
  | EmptyString => EmptyString
  | String c s' =>
      match rstrip_sep s' with
      | EmptyString => if Ascii.eqb c sep then EmptyString
                       else String c EmptyString
      | r => String c r
      end
  end.

Definition is_empty (s : string) : bool :=
  match s with EmptyString => true | _ => false end.

Definition split (p : string) : string * string :=
  let '(head, tail) := rsplit_sep p in
  if negb (is_empty head) && negb (all_sep head)
  then (rstrip_sep head, tail) else (head, tail).

Definition dirname (p : string) : string := fst (split p).
Definition basename (p : string) : string := snd (rsplit_sep p).

(** ['/' in p] *)
Fixpoint has_sep (p : string) : bool :=
  match p with
  | EmptyString => false
  | String c s => Ascii.eqb c sep || has_sep s
  end.

End PosixPath.


(** ** The data model of [dataset.py] *)

(** A page of the rendering engine ([fitz.Page]): the table of the attributes
    it answers to.  [getattr(page, name)] raises [AttributeError] for a name
    outside the table.  An attribute whose getter raises something else (a
    page of a closed document) is outside this table: statements about the
    lookup are conditioned on what the table answers. *)
Record FitzPage : Type := { page_attrs : gmap string pyval }.

Definition page_getattr (page : FitzPage) (name : string) : Res pyval :=
  match page_attrs page !! name with
  | Some v => inr v
  | None => inl (AttributeError name)
  end.

(** A document of the rendering engine ([fitz.Document]): iterating over it
    yields its pages in document order. *)
Definition FitzDoc : Type := list FitzPage.

(** [class Doc(PageableData)]: the one instance attribute is [_doc]. *)
Record Doc : Type := { _doc : FitzPage }.

(** Modelled from the spec: the enumeration [SupportedPdfParseMethod] of
    [magic_pdf/config/enums.py], "a set drawn from {OCR, TEXT_EXTRACTION}";
    the code calls the second member [TXT]. *)
Inductive SupportedPdfParseMethod : Type := OCR | TXT.

#[global] Instance SupportedPdfParseMethod_eq_dec :
  EqDecision SupportedPdfParseMethod.
Proof. solve_decision. Defined.

(** The two concrete classes deriving from [Dataset]. *)
Inductive DatasetClass : Type := PymuDocDatasetClass | ImageDatasetClass.

(** An instance of either class: both constructors set the same four
    attributes. *)
Record Dataset : Type := {
  ds_class : DatasetClass;
  _raw_fitz : FitzDoc;
  _records : list Doc;
  _data_bits : bytes;
  _raw_data : bytes
}.

(** Objects that travel as arguments and attribute values.  [ObjMember] is
    what the normal lookup finds in a class or in [object]: a bound method
    or a class-level attribute. *)
Inductive PyObj : Type :=
| ObjVal (v : pyval)
| ObjBytes (b : bytes)
| ObjPage (page : FitzPage)
| ObjDoc (doc : Doc)
| ObjDataset (d : Dataset)
| ObjMember (cls name : string).

(** ** The data model of [operators.py] *)

(** Modelled from the spec: the constants of
    [magic_pdf/config/make_content_config.py]; [MakeMode] is the "variant of
    markdown shaping, e.g. plain vs. multimedia-annotated" with the "standard
    structured" mode, [DropMode] the drop policy, "drop whole document",
    "skip only offending pages" or "no drop". *)
Inductive MakeMode : Type := MM_MD | NLP_MD | STANDARD_FORMAT.
Inductive DropMode : Type := WHOLE_PDF | SINGLE_PAGE | NONE.

(** [class PipeResult]: the two attributes set by [__init__]. *)
Record PipeResult : Type := {
  _pipe_res : pyval;
  _dataset : Dataset
}.

(** ** The outside world *)

(** A call made to an external collaborator, with its arguments. *)
Inductive Event : Type :=
| CallFitzOpenPdf (bits : bytes)
| CallFitzOpenStream (bits : bytes)
| CallConvertToPdf (doc : FitzDoc)
| CallFitzSave (doc : FitzDoc) (file_path : string)
| CallClassify (bits : bytes)
| CallUnionMake (pdf_info : pyval) (mode : MakeMode) (drop : DropMode)
    (img_prefix : string)
| CallWriteString (file_path : string) (content : pyval)
| CallDrawLayoutBbox (pdf_info : pyval) (bits : bytes) (out_dir name : string)
| CallDrawSpanBbox (pdf_info : pyval) (bits : bytes) (out_dir name : string)
| CallDrawLineSortBbox (pdf_info : pyval) (bits : bytes) (out_dir name : string)
| CallCompressJson (obj : PyObj).

(** The file system as [os.path.exists] and [os.makedirs] see it: the
    directories and the regular files that exist.  Paths are compared as
    written, without normalising [.], [..] or repeated separators; the root
    always exists and the empty path never does.  The files that the
    collaborators write (the engine's [save], the writer, the renderers) are
    not entered here: those writes appear in the call log only. *)
Record FileSystem : Type := {
  fs_dirs : gset string;
  fs_files : gset string
}.

Record World : Type := {
  fs : FileSystem;
  trace : list Event
}.

(** The state and error monad of effectful code. *)
Definition M (A : Type) : Type := World -> Res A * World.

Definition ret {A} (a : A) : M A := fun w => (inr a, w).
Definition raise {A} (e : PyExn) : M A := fun w => (inl e, w).
Definition bind {A B} (m : M A) (k : A -> M B) : M B :=
  fun w => match m w with
           | (inr a, w') => k a w'
           | (inl e, w') => (inl e, w')
           end.
Definition lift {A} (r : Res A) : M A := fun w => (r, w).

Notation "'let*' x ':=' m 'in' k" := (bind m (fun x => k))
  (at level 10, x pattern, m at level 100, k at level 200).
Notation "m1 ';;' m2" := (bind m1 (fun _ => m2))
  (at level 100, right associativity).

Definition emit (ev : Event) : M unit :=
  fun w => (inr tt, {| fs := fs w; trace := trace w ++ [ev] |}).

(** Calling a collaborator: the call is logged, then its outcome (a value or
    an exception) is the outcome of the call.  What the collaborator does to
    the disk is not tracked: [fs] is the view of the directory preparation
    alone. *)
Definition call {A} (ev : Event) (outcome : Res A) : M A :=
  emit ev;; lift outcome.

Definition catch {A} (m : M A) (handler : PyExn -> M A) : M A :=
  fun w => match m w with
           | (inl e, w') => handler e w'
           | r => r
           end.

Definition get_fs : M FileSystem := fun w => (inr (fs w), w).

(** ** [os.path.exists], [os.mkdir] and [os.makedirs] *)

Module Os.
Import PosixPath.

Definition path_isdir (fsys : FileSystem) (p : string) : bool :=
  negb (is_empty p) && (all_sep p || bool_decide (p ∈ fs_dirs fsys)).

Definition path_exists (fsys : FileSystem) (p : string) : bool :=
  negb (is_empty p)
  && (all_sep p || bool_decide (p ∈ fs_dirs fsys)
      || bool_decide (p ∈ fs_files fsys)).

Definition add_dir (name : string) (w : World) : World :=
  {| fs := {| fs_dirs := {[ name ]} ∪ fs_dirs (fs w);
              fs_files := fs_files (fs w) |};
     trace := trace w |}.

(** [os.mkdir(name)]: the empty path and a missing parent are "no such
    file or directory", an existing path is "file exists". *)
Definition mkdir (name : string) : M unit :=
  fun w =>
    let fsys := fs w in
    let parent := dirname name in
    if is_empty name then (inl (FileNotFoundError name), w)
    else if path_exists fsys name then (inl (FileExistsError name), w)
    else if is_empty parent || path_isdir fsys parent
         then (inr tt, add_dir name w)
    else if path_exists fsys parent then (inl (NotADirectoryError name), w)
    else (inl (FileNotFoundError name), w).

(** [os.makedirs(name, exist_ok=...)], the recursion of the standard
    library on the head of the path; [fuel] bounds its depth. *)
Fixpoint makedirs_rec (fuel : nat) (name : string) (exist_ok : bool)
  : M unit :=
  match fuel with
  | O => raise RecursionError
  | S fuel' =>
      let '(head, tail) := split name in
      let '(head, tail) :=
        if is_empty tail then split head else (head, tail) in
      let* fsys := get_fs in
      let* done :=
        if negb (is_empty head) && negb (is_empty tail)
           && negb (path_exists fsys head)
        then
          catch (makedirs_rec fuel' head exist_ok)
                (fun e => match e with
                          | FileExistsError _ => ret tt
                          | _ => raise e
                          end);;
          ret (String.eqb tail ".")
        else ret false in
      if (done : bool) then ret tt
      else
        catch (mkdir name)
              (fun e =>
                 let* fsys' := get_fs in
                 if negb exist_ok || negb (path_isdir fsys' name)
                 then raise e else ret tt)
  end.

Definition makedirs (name : string) (exist_ok : bool) : M unit :=
  makedirs_rec (S (String.length name)) name exist_ok.

End Os.

(** ** External collaborators *)

(** What the two files import and call but do not define.  Each may return a
    value or raise. *)
Class Externals : Type := {
  (** [fitz.open('pdf', bits)] *)
  fitz_open_pdf : bytes -> Res FitzDoc;
  (** [fitz.open(stream=bits)] *)
  fitz_open_stream : bytes -> Res FitzDoc;
  (** [document.convert_to_pdf()] *)
  fitz_convert_to_pdf : FitzDoc -> Res bytes;
  (** [document.save(file_path)] *)
  fitz_save : FitzDoc -> string -> Res unit;
  (** [magic_pdf.filter.classify(bits)] *)
  filter_classify : bytes -> Res SupportedPdfParseMethod;
  (** [union_make(pdf_info, make_mode, drop_mode, img_prefix)] *)
  union_make : pyval -> MakeMode -> DropMode -> string -> Res pyval;
  (** [json.dumps(obj, ensure_ascii=..., indent=...)] *)
  json_dumps : pyval -> bool -> option Z -> Res string;
  draw_layout_bbox : pyval -> bytes -> string -> string -> Res unit;
  draw_span_bbox : pyval -> bytes -> string -> string -> Res unit;
  draw_line_sort_bbox : pyval -> bytes -> string -> string -> Res unit;
  (** [JsonCompressor.compress_json(obj)] *)
  compress_json : PyObj -> Res string
}.

(** A [DataWriter]: the one method the exporters call. *)
Record DataWriter : Type := {
  write_string : string -> pyval -> Res unit
}.

(** A Python callable as [apply] receives it: positional arguments, keyword
    arguments, and an effectful body. *)
Definition Callable : Type :=
  list PyObj -> list (string * PyObj) -> M PyObj.

(** Binding the call [self.apply(proc, *args, **kwargs)] to the signature
    [apply(self, proc, *args, **kwargs)]: [self] and [proc] are bound by
    position, so the first keyword bearing one of these two names is a
    second value for the parameter, and the call raises [TypeError] before
    the body runs. *)
Definition apply_params : list string := [ "self"; "proc" ]%string.

Fixpoint keyword_clash (kwargs : list (string * PyObj)) : option string :=
  match kwargs with
  | [] => None
  | (name, _) :: rest =>
      if mem_str name apply_params then Some name else keyword_clash rest
  end.

Definition bind_apply_kwargs (qualname : string)
  (kwargs : list (string * PyObj)) : Res unit :=
  match keyword_clash kwargs with
  | Some name =>
      inl (TypeError
             (String.append qualname
                (String.append "() got multiple values for argument '"
                   (String.append name "'"))))
  | None => inr tt
  end.

(** ** [class Doc]

    The construction, the accessor of the underlying page and the attribute
    lookup.  The remaining methods ([get_image], [get_page_info],
    [draw_rect], [insert_text]) hand their arguments to the rendering
    engine and appear here as names of the class only. *)

Module Doc.

Definition __init__ (doc : FitzPage) : Doc := {| _doc := doc |}.

Definition get_doc (self : Doc) : FitzPage := _doc self.

(** [__getattr__(self, name)]: the hook Python calls when the normal
    lookup of [name] fails.  The function body ends after the [if]: when
    the test is false it returns [None]. *)
Definition __getattr__ (self : Doc) (name : string) : Res pyval :=
  match hasattr_of (page_getattr (_doc self) name) with
  | inl e => inl e
  | inr true => page_getattr (_doc self) name
  | inr false => inr PyNone
  end.

Definition instance_attrs : list string := [ "_doc" ]%string.

(** The names bound in the class body (and in [PageableData]). *)
Definition class_attrs : list string :=
  [ "__init__"; "get_image"; "get_doc"; "get_page_info"; "__getattr__";
    "draw_rect"; "insert_text" ]%string.

(** The names the normal lookup finds on a [Doc]. *)
Definition defined (name : string) : bool :=
  mem_str name instance_attrs || mem_str name class_attrs
  || mem_str name abc_attrs || mem_str name object_attrs.

(** [self.name]: the normal lookup, then [__getattr__]. *)
Definition getattribute (self : Doc) (name : string) : Res PyObj :=
  if String.eqb name "_doc" then inr (ObjPage (_doc self))
  else if defined name then inr (ObjMember "Doc" name)
  else match __getattr__ self name with
       | inr v => inr (ObjVal v)
       | inl e => inl e
       end.

End Doc.

(** ** [class PymuDocDataset] and [class ImageDataset] *)

Module PymuDocDataset.
Section Methods.
Context {ext : Externals}.

Definition __init__ (bits : bytes) : M Dataset :=
  let* raw_fitz := call (CallFitzOpenPdf bits) (fitz_open_pdf bits) in
  ret {| ds_class := PymuDocDatasetClass;
         _raw_fitz := raw_fitz;
         _records := map Doc.__init__ raw_fitz;
         _data_bits := bits;
         _raw_data := bits |}.

Definition __len__ (self : Dataset) : Z :=
  Z.of_nat (length (_records self)).

Definition __iter__ (self : Dataset) : list Doc := _records self.

Definition supported_methods (self : Dataset)
  : list SupportedPdfParseMethod := [OCR; TXT].

Definition data_bits (self : Dataset) : bytes := _data_bits self.

Definition get_page (self : Dataset) (page_id : Z) : Res Doc :=
  list_getitem (_records self) page_id.

Definition dump_to_file (self : Dataset) (file_path : string) : M unit :=
  let dir_name := PosixPath.dirname file_path in
  (if negb (mem_str dir_name [ EmptyString; "."; ".." ]%string)
   then Os.makedirs dir_name true else ret tt);;
  call (CallFitzSave (_raw_fitz self) file_path)
       (fitz_save (_raw_fitz self) file_path).

Definition apply (self : Dataset) (proc : Callable)
  (args : list PyObj) (kwargs : list (string * PyObj)) : M PyObj :=
  lift (bind_apply_kwargs "PymuDocDataset.apply" kwargs);;
  let new_args := [ObjDataset self] ++ args in
  proc new_args kwargs.

Definition classify (self : Dataset) : M SupportedPdfParseMethod :=
  call (CallClassify (_data_bits self))
       (filter_classify (_data_bits self)).

End Methods.
End PymuDocDataset.

Module ImageDataset.
Section Methods.
Context {ext : Externals}.

Definition __init__ (bits : bytes) : M Dataset :=
  let* image := call (CallFitzOpenStream bits) (fitz_open_stream bits) in
  let* pdf_bytes :=
    call (CallConvertToPdf image) (fitz_convert_to_pdf image) in
  let* raw_fitz :=
    call (CallFitzOpenPdf pdf_bytes) (fitz_open_pdf pdf_bytes) in
  ret {| ds_class := ImageDatasetClass;
         _raw_fitz := raw_fitz;
         _records := map Doc.__init__ raw_fitz;
         _raw_data := bits;
         _data_bits := pdf_bytes |}.

Definition __len__ (self : Dataset) : Z :=
  Z.of_nat (length (_records self)).

Definition __iter__ (self : Dataset) : list Doc := _records self.

Definition supported_methods (self : Dataset)
  : list SupportedPdfParseMethod := [OCR].

Definition data_bits (self : Dataset) : bytes := _data_bits self.

Definition get_page (self : Dataset) (page_id : Z) : Res Doc :=
  list_getitem (_records self) page_id.

Definition dump_to_file (self : Dataset) (file_path : string) : M unit :=
  let dir_name := PosixPath.dirname file_path in
  (if negb (mem_str dir_name [ EmptyString; "."; ".." ]%string)
   then Os.makedirs dir_name true else ret tt);;
  call (CallFitzSave (_raw_fitz self) file_path)
       (fitz_save (_raw_fitz self) file_path).

Definition apply (self : Dataset) (proc : Callable)
  (args : list PyObj) (kwargs : list (string * PyObj)) : M PyObj :=
  lift (bind_apply_kwargs "ImageDataset.apply" kwargs);;
  proc (ObjDataset self :: args) kwargs.

Definition classify (self : Dataset) : M SupportedPdfParseMethod :=
  ret OCR.

End Methods.
End ImageDataset.

(** A method call on a [Dataset] runs the method of the instance's class. *)
Module Dataset.
Section Dispatch.
Context {ext : Externals}.

Definition __len__ (self : Dataset) : Z :=
  match ds_class self with
  | PymuDocDatasetClass => PymuDocDataset.__len__ self
  | ImageDatasetClass => ImageDataset.__len__ self
  end.

Definition __iter__ (self : Dataset) : list Doc :=
  match ds_class self with
  | PymuDocDatasetClass => PymuDocDataset.__iter__ self
  | ImageDatasetClass => ImageDataset.__iter__ self
  end.

Definition dump_to_file (self : Dataset) (file_path : string) : M unit :=
  match ds_class self with
  | PymuDocDatasetClass => PymuDocDataset.dump_to_file self file_path
  | ImageDatasetClass => ImageDataset.dump_to_file self file_path
  end.

Definition supported_methods (self : Dataset)
  : list SupportedPdfParseMethod :=
  match ds_class self with
  | PymuDocDatasetClass => PymuDocDataset.supported_methods self
  | ImageDatasetClass => ImageDataset.supported_methods self
  end.

Definition data_bits (self : Dataset) : bytes :=
  match ds_class self with
  | PymuDocDatasetClass => PymuDocDataset.data_bits self
  | ImageDatasetClass => ImageDataset.data_bits self
  end.

Definition get_page (self : Dataset) (page_id : Z) : Res Doc :=
  match ds_class self with
  | PymuDocDatasetClass => PymuDocDataset.get_page self page_id
  | ImageDatasetClass => ImageDataset.get_page self page_id
  end.

Definition apply (self : Dataset) (proc : Callable)
  (args : list PyObj) (kwargs : list (string * PyObj)) : M PyObj :=
  match ds_class self with
  | PymuDocDatasetClass => PymuDocDataset.apply self proc args kwargs
  | ImageDatasetClass => ImageDataset.apply self proc args kwargs
  end.

Definition classify (self : Dataset) : M SupportedPdfParseMethod :=
  match ds_class self with
  | PymuDocDatasetClass => PymuDocDataset.classify self
  | ImageDatasetClass => ImageDataset.classify self
  end.

End Dispatch.
End Dataset.

(** ** [class PipeResult] *)

Module PipeResult.
Section Methods.
Context {ext : Externals}.

Definition __init__ (pipe_res : pyval) (dataset : Dataset) : PipeResult :=
  {| _pipe_res := pipe_res; _dataset := dataset |}.

Definition instance_attrs : list string := [ "_pipe_res"; "_dataset" ]%string.

(** The names bound in the class body. *)
Definition class_attrs : list string :=
  [ "__init__"; "dump_md"; "dump_content_list"; "dump_middle_json";
    "draw_layout"; "draw_span"; "draw_line_sort";
    "get_compress_pdf_mid_data" ]%string.

(** [self.name]: the class defines no [__getattr__], so a name the normal
    lookup does not find raises [AttributeError]. *)
Definition getattribute (self : PipeResult) (name : string) : Res PyObj :=
  if String.eqb name "_pipe_res" then inr (ObjVal (_pipe_res self))
  else if String.eqb name "_dataset" then inr (ObjDataset (_dataset self))
  else if mem_str name class_attrs || mem_str name object_attrs
       then inr (ObjMember "PipeResult" name)
  else inl (AttributeError name).

(** [drop_mode] and [md_make_mode] are optional; [None] here is an argument
    left out, which takes the default of the signature. *)
Definition dump_md (self : PipeResult) (writer : DataWriter)
  (file_path img_dir_or_bucket_prefix : string)
  (drop_mode : option DropMode) (md_make_mode : option MakeMode) : M unit :=
  let drop_mode := default WHOLE_PDF drop_mode in
  let md_make_mode := default MM_MD md_make_mode in
  let* pdf_info_list := lift (getitem_str (_pipe_res self) "pdf_info") in
  let* md_content :=
    call (CallUnionMake pdf_info_list md_make_mode drop_mode
            img_dir_or_bucket_prefix)
         (union_make pdf_info_list md_make_mode drop_mode
            img_dir_or_bucket_prefix) in
  call (CallWriteString file_path md_content)
       (write_string writer file_path md_content).

Definition dump_content_list (self : PipeResult) (writer : DataWriter)
  (file_path image_dir_or_bucket_prefix : string) : M unit :=
  let* pdf_info_list := lift (getitem_str (_pipe_res self) "pdf_info") in
  let* content_list :=
    call (CallUnionMake pdf_info_list STANDARD_FORMAT NONE
            image_dir_or_bucket_prefix)
         (union_make pdf_info_list STANDARD_FORMAT NONE
            image_dir_or_bucket_prefix) in
  let* text := lift (json_dumps content_list false (Some 4%Z)) in
  call (CallWriteString file_path (PyStr text))
       (write_string writer file_path (PyStr text)).

Definition dump_middle_json (self : PipeResult) (writer : DataWriter)
  (file_path : string) : M unit :=
  let* text := lift (json_dumps (_pipe_res self) false (Some 4%Z)) in
  call (CallWriteString file_path (PyStr text))
       (write_string writer file_path (PyStr text)).

Definition draw_layout (self : PipeResult) (file_path : string) : M unit :=
  let dir_name := PosixPath.dirname file_path in
  let base_name := PosixPath.basename file_path in
  let* fsys := get_fs in
  (if negb (Os.path_exists fsys dir_name)
   then Os.makedirs dir_name true else ret tt);;
  let* pdf_info := lift (getitem_str (_pipe_res self) "pdf_info") in
  let bits := Dataset.data_bits (_dataset self) in
  call (CallDrawLayoutBbox pdf_info bits dir_name base_name)
       (draw_layout_bbox pdf_info bits dir_name base_name).

Definition draw_span (self : PipeResult) (file_path : string) : M unit :=
  let dir_name := PosixPath.dirname file_path in
  let base_name := PosixPath.basename file_path in
  let* fsys := get_fs in
  (if negb (Os.path_exists fsys dir_name)
   then Os.makedirs dir_name true else ret tt);;
  let* pdf_info := lift (getitem_str (_pipe_res self) "pdf_info") in
  let bits := Dataset.data_bits (_dataset self) in
  call (CallDrawSpanBbox pdf_info bits dir_name base_name)
       (draw_span_bbox pdf_info bits dir_name base_name).

Definition draw_line_sort (self : PipeResult) (file_path : string) : M unit :=
  let dir_name := PosixPath.dirname file_path in
  let base_name := PosixPath.basename file_path in
  let* fsys := get_fs in
  (if negb (Os.path_exists fsys dir_name)
   then Os.makedirs dir_name true else ret tt);;
  let* pdf_info := lift (getitem_str (_pipe_res self) "pdf_info") in
  let bits := Dataset.data_bits (_dataset self) in
  call (CallDrawLineSortBbox pdf_info bits dir_name base_name)
       (draw_line_sort_bbox pdf_info bits dir_name base_name).

Definition get_compress_pdf_mid_data (self : PipeResult) : M string :=
  let* pdf_mid_data := lift (getattribute self "pdf_mid_data") in
  call (CallCompressJson pdf_mid_data) (compress_json pdf_mid_data).

End Methods.
End PipeResult.

(** ** Sample collaborators and inputs

    One concrete world to run the code in: a toy rendering engine whose
    paged documents are the header [%PDF] followed by one byte per page. *)

Module Sample.

Definition pdf_magic : bytes := [Byte.x25; Byte.x50; Byte.x44; Byte.x46].

Fixpoint strip_magic (magic b : bytes) : option bytes :=
  match magic, b with
  | [], rest => Some rest
  | m :: magic', x :: b' =>
      if Byte.eqb m x then strip_magic magic' b' else None
  | _ :: _, [] => None
  end.

Definition is_pdf (b : bytes) : bool :=
  match strip_magic pdf_magic b with Some _ => true | None => false end.

Definition page (number : Z) : FitzPage :=
  {| page_attrs := {[ "number"%string := PyInt number;
                      "rect"%string := PyOpaque "Rect(0, 0, 800, 600)" ]} |}.

Fixpoint pages_from (number : Z) (body : bytes) : FitzDoc :=
  match body with
  | [] => []
  | _ :: body' => page number :: pages_from (number + 1) body'
  end.

Definition open_pdf (b : bytes) : Res FitzDoc :=
  match strip_magic pdf_magic b with
  | Some body => inr (pages_from 0 body)
  | None => inl (ExternalError "cannot open broken document")
  end.

Definition open_stream (b : bytes) : Res FitzDoc :=
  match b with
  | [] => inl (ExternalError "cannot open empty document")
  | _ => if is_pdf b then open_pdf b else inr [page 0]
  end.

Definition to_pdf (doc : FitzDoc) : Res bytes :=
  inr (pdf_magic ++ map (fun _ => Byte.x01) doc).

Definition dumps (v : pyval) (ensure_ascii : bool) (indent : option Z)
  : Res string :=
  match v with
  | PyDict [] => inr "{}"%string
  | PyList [] => inr "[]"%string
  | PyOpaque _ => inl (TypeError "Object is not JSON serializable")
  | _ => inr "<json>"%string
  end.

#[local] Instance externals : Externals := {|
  fitz_open_pdf := open_pdf;
  fitz_open_stream := open_stream;
  fitz_convert_to_pdf := to_pdf;
  fitz_save := fun _ _ => inr tt;
  filter_classify := fun _ => inr TXT;
  union_make := fun pdf_info mode _ _ =>
    match mode with
    | STANDARD_FORMAT => inr pdf_info
    | _ => inr (PyStr "# markdown")
    end;
  json_dumps := dumps;
  draw_layout_bbox := fun _ _ _ _ => inr tt;
  draw_span_bbox := fun _ _ _ _ => inr tt;
  draw_line_sort_bbox := fun _ _ _ _ => inr tt;
  compress_json := fun _ => inr "compressed"%string
|}.

Definition writer : DataWriter := {| write_string := fun _ _ => inr tt |}.

Definition world0 : World :=
  {| fs := {| fs_dirs := ∅; fs_files := ∅ |}; trace := [] |}.

(** A world in which the current directory is listed as existing. *)
Definition world_cwd : World :=
  {| fs := {| fs_dirs := {[ "."%string ]}; fs_files := ∅ |}; trace := [] |}.

(** A two-page paged document and a raster image. *)
Definition pdf2 : bytes := pdf_magic ++ [Byte.x01; Byte.x01].
Definition png : bytes := [Byte.x89; Byte.x50; Byte.x4e; Byte.x47].

Definition direct2 : Dataset :=
  {| ds_class := PymuDocDatasetClass;
     _raw_fitz := [page 0; page 1];
     _records := [Doc.__init__ (page 0); Doc.__init__ (page 1)];
     _data_bits := pdf2;
     _raw_data := pdf2 |}.

Definition converted1 : Dataset :=
  {| ds_class := ImageDatasetClass;
     _raw_fitz := [page 0];
     _records := [Doc.__init__ (page 0)];
     _data_bits := pdf_magic ++ [Byte.x01];
     _raw_data := png |}.

(** A procedure that returns the number of positional arguments it got. *)
Definition count_args : Callable :=
  fun args _ => ret (ObjVal (PyInt (Z.of_nat (length args)))).

Definition empty_result : PipeResult :=
  PipeResult.__init__ (PyDict []) direct2.

Definition result2 : PipeResult :=
  PipeResult.__init__
    (PyDict [("pdf_info"%string, PyList [PyDict []; PyDict []])]) direct2.

End Sample.

(** ** Vocabulary of the statements *)

(** The world after one more logged call. *)
Definition log (ev : Event) (w : World) : World :=
  {| fs := fs w; trace := trace w ++ [ev] |}.

(** The outcome of an overlay renderer that stops at the lookup of
    ['pdf_info']: nothing is added to the call log, and the exception is
    [KeyError] unless creating the missing directory raised first. *)
Definition stops_before_rendering (dir_name : string) (w : World)
  (out : Res unit * World) : Prop :=
  trace (snd out) = trace w
  /\ if Os.path_exists (fs w) dir_name
     then out = (inl (KeyError "pdf_info"), w)
     else match Os.makedirs dir_name true w with
          | (inr _, w') => out = (inl (KeyError "pdf_info"), w')
          | (inl e, w') => out = (inl e, w')
          end.

(** A computation that adds nothing to the call log. *)
Definition keeps_trace {A} (m : M A) : Prop :=
  forall w, trace (snd (m w)) = trace w.

(** A computation that never exhausts its recursion depth. *)
Definition never_overflows {A} (m : M A) : Prop :=
  forall w, fst (m w) <> inl RecursionError.

(** The calls of the writer in a stretch of the call log. *)
Definition is_write (ev : Event) : bool :=
  match ev with CallWriteString _ _ => true | _ => false end.

(** [p.endswith('/')] *)
Fixpoint ends_with_sep (p : string) : bool :=
  match p with
  | EmptyString => false
  | String c EmptyString => Ascii.eqb c PosixPath.sep
  | String _ s => ends_with_sep s
  end.

(** * Properties *)

(** ** Sanity checks of the models of the standard library *)

Example dirname_nested :
  PosixPath.dirname "out/sub/doc.pdf" = "out/sub"%string.
Proof. reflexivity. Qed.

Example dirname_plain : PosixPath.dirname "layout.pdf" = EmptyString.
Proof. reflexivity. Qed.

Example dirname_double_sep : PosixPath.dirname "a//x" = "a"%string.
Proof. reflexivity. Qed.

Example dirname_root : PosixPath.dirname "/x" = "/"%string.
Proof. reflexivity. Qed.

Example basename_nested :
  PosixPath.basename "out/sub/doc.pdf" = "doc.pdf"%string.
Proof. reflexivity. Qed.

Example split_trailing_sep : PosixPath.split "a/b/" = ("a/b"%string, EmptyString).
Proof. reflexivity. Qed.

Example list_getitem_last : list_getitem [10; 20; 30]%Z (-1) = inr 30%Z.
Proof. reflexivity. Qed.

Example list_getitem_too_negative :
  list_getitem [10; 20; 30]%Z (-4) = inl IndexError.
Proof. reflexivity. Qed.

Example list_getitem_len : list_getitem [10; 20; 30]%Z 3 = inl IndexError.
Proof. reflexivity. Qed.

Example init_direct2 :
  PymuDocDataset.__init__ (ext := Sample.externals) Sample.pdf2 Sample.world0
  = (inr Sample.direct2,
     {| fs := fs Sample.world0;
        trace := [CallFitzOpenPdf Sample.pdf2] |}).
Proof. reflexivity. Qed.

Example init_converted1 :
  fst (ImageDataset.__init__ (ext := Sample.externals) Sample.png Sample.world0)
  = inr Sample.converted1.
Proof. reflexivity. Qed.

Example makedirs_nested :
  fst (Os.makedirs "out/sub" true Sample.world0) = inr tt
  /\ Os.path_isdir (fs (snd (Os.makedirs "out/sub" true Sample.world0)))
       "out/sub" = true
  /\ Os.path_isdir (fs (snd (Os.makedirs "out/sub" true Sample.world0)))
       "out" = true.
Proof. vm_compute. auto. Qed.

(** ** Indexing a list the way Python does *)

Section ListGetitem.
Context {A : Type}.
Implicit Types (l : list A) (i : Z).

Lemma list_getitem_nonneg l i :
  (0 <= i < Z.of_nat (length l))%Z ->
  exists x, l !! Z.to_nat i = Some x /\ list_getitem l i = inr x.
Proof.
  intros [Hlo Hhi]. unfold list_getitem.
  destruct (Z.ltb_spec i 0) as [Hneg | _]; [lia |].
  destruct (Z.ltb_spec i 0) as [Hneg | _]; [lia |].
  destruct (Z.leb_spec (Z.of_nat (length l)) i) as [Hge | _]; [lia |].
  simpl. destruct (l !! Z.to_nat i) as [x |] eqn:Hx.
  - exists x. split; reflexivity.
  - apply lookup_ge_None in Hx. lia.
Qed.

Lemma list_getitem_wraps l i :
  (i < 0)%Z ->
  list_getitem l i = list_getitem l (Z.of_nat (length l) + i) 
  \/ (i < - Z.of_nat (length l))%Z.
Proof.
  intros Hneg.
  destruct (Z.lt_ge_cases i (- Z.of_nat (length l))) as [Hlow | Hok];
    [right; exact Hlow | left].
  unfold list_getitem.
  destruct (Z.ltb_spec i 0) as [_ | Hge]; [| lia].
  destruct (Z.ltb_spec (Z.of_nat (length l) + i) 0) as [Hlt | _]; [lia |].
  rewrite (Z.add_comm i). reflexivity.
Qed.

Lemma list_getitem_negative l i :
  (- Z.of_nat (length l) <= i < 0)%Z ->
  exists x, l !! Z.to_nat (Z.of_nat (length l) + i) = Some x
            /\ list_getitem l i = inr x.
Proof.
  intros [Hlo Hhi].
  destruct (list_getitem_wraps l i Hhi) as [Heq | Hlow]; [| lia].
  rewrite Heq. apply list_getitem_nonneg. lia.
Qed.

Lemma list_getitem_out_of_range l i :
  (i < - Z.of_nat (length l) \/ Z.of_nat (length l) <= i)%Z ->
  list_getitem l i = inl IndexError.
Proof.
  intros Hout. unfold list_getitem.
  destruct (Z.ltb_spec i 0) as [Hneg | Hpos].
  - destruct (Z.ltb_spec (i + Z.of_nat (length l)) 0) as [_ | Hge];
      [reflexivity | lia].
  - destruct (Z.ltb_spec i 0) as [Hneg | _]; [lia |].
    destruct (Z.leb_spec (Z.of_nat (length l)) i) as [_ | Hlt];
      [reflexivity | lia].
Qed.

End ListGetitem.

(** ** The dataset classes *)

Lemma get_page_unfold (d : Dataset) (i : Z) :
  Dataset.get_page d i = list_getitem (_records d) i.
Proof. unfold Dataset.get_page. destruct (ds_class d); reflexivity. Qed.

Lemma len_unfold (d : Dataset) :
  Dataset.__len__ d = Z.of_nat (length (_records d)).
Proof. unfold Dataset.__len__. destruct (ds_class d); reflexivity. Qed.

(** C1, as the claim states it, fails: on the two-page direct dataset
    [get_page(-1)] does not raise, it returns the last page. *)
Lemma get_page_minus_one_returns_last_page :
  Dataset.__len__ Sample.direct2 = 2%Z
  /\ Dataset.get_page Sample.direct2 (-1)
     = inr (Doc.__init__ (Sample.page 1))
  /\ Dataset.get_page Sample.direct2 (-1) <> inl IndexError.
Proof. repeat split. discriminate. Qed.

(** C1 (amended): for a dataset of either class, of length [n] (the number
    of its page handles), [get_page(i)] returns the page handle at index [i]
    when [0 <= i < n], the page handle at index [n + i] when [-n <= i < 0]
    (an index counted from the end), and raises [IndexError] for every other
    index, [n] among them. *)
Theorem get_page_index_semantics (d : Dataset) (i : Z) :
  Dataset.__len__ d = Z.of_nat (length (_records d))
  /\ ((0 <= i < Dataset.__len__ d)%Z ->
      exists page, _records d !! Z.to_nat i = Some page
                   /\ Dataset.get_page d i = inr page)
  /\ ((- Dataset.__len__ d <= i < 0)%Z ->
      exists page,
        _records d !! Z.to_nat (Dataset.__len__ d + i) = Some page
        /\ Dataset.get_page d i = inr page)
  /\ ((i < - Dataset.__len__ d \/ Dataset.__len__ d <= i)%Z ->
      Dataset.get_page d i = inl IndexError).
Proof.
  rewrite len_unfold, get_page_unfold.
  split; [reflexivity |].
  split; [apply list_getitem_nonneg |].
  split; [apply list_getitem_negative | apply list_getitem_out_of_range].
Qed.

(** Indices 1, -1 and 2 on the two-page dataset, -2 on the one-page one. *)
Lemma get_page_index_semantics_witness :
  (exists page, _records Sample.direct2 !! Z.to_nat 1 = Some page
                /\ Dataset.get_page Sample.direct2 1 = inr page)
  /\ (exists page,
        _records Sample.direct2
          !! Z.to_nat (Dataset.__len__ Sample.direct2 + -1) = Some page
        /\ Dataset.get_page Sample.direct2 (-1) = inr page)
  /\ Dataset.get_page Sample.direct2 2 = inl IndexError
  /\ Dataset.get_page Sample.converted1 (-2) = inl IndexError.
Proof.
  pose proof (get_page_index_semantics Sample.direct2 1) as (_ & H1 & _ & _).
  pose proof (get_page_index_semantics Sample.direct2 (-1)) as (_ & _ & H2 & _).
  pose proof (get_page_index_semantics Sample.direct2 2) as (_ & _ & _ & H3).
  pose proof (get_page_index_semantics Sample.converted1 (-2))
    as (_ & _ & _ & H4).
  change (Dataset.__len__ Sample.direct2) with 2%Z in *.
  change (Dataset.__len__ Sample.converted1) with 1%Z in *.
  split; [apply H1; lia |].
  split; [apply H2; lia |].
  split; [apply H3; lia | apply H4; lia].
Defined.

(** C4: a direct dataset supports exactly OCR and text extraction, a
    converted dataset exactly OCR. *)
Theorem supported_methods_by_variant (d : Dataset) :
  (ds_class d = PymuDocDatasetClass ->
   Dataset.supported_methods d = [OCR; TXT]
   /\ forall m, m ∈ Dataset.supported_methods d <-> m = OCR \/ m = TXT)
  /\ (ds_class d = ImageDatasetClass ->
      Dataset.supported_methods d = [OCR]
      /\ forall m, m ∈ Dataset.supported_methods d <-> m = OCR).
Proof.
  unfold Dataset.supported_methods.
  split; intros ->; (split; [reflexivity |]); intros m; simpl;
    unfold PymuDocDataset.supported_methods, ImageDataset.supported_methods.
  - rewrite !elem_of_cons, elem_of_nil. tauto.
  - rewrite elem_of_cons, elem_of_nil. tauto.
Qed.

(** The two sample datasets, one of each class. *)
Lemma supported_methods_by_variant_witness :
  (Dataset.supported_methods Sample.direct2 = [OCR; TXT]
   /\ forall m, m ∈ Dataset.supported_methods Sample.direct2
                <-> m = OCR \/ m = TXT)
  /\ (Dataset.supported_methods Sample.converted1 = [OCR]
      /\ forall m, m ∈ Dataset.supported_methods Sample.converted1
                   <-> m = OCR).
Proof.
  split.
  - apply (proj1 (supported_methods_by_variant Sample.direct2)). reflexivity.
  - apply (proj2 (supported_methods_by_variant Sample.converted1)).
    reflexivity.
Defined.

Lemma keyword_clash_none (kwargs : list (string * PyObj)) :
  keyword_clash kwargs = None <->
  (("self"%string ∉ (kwargs.*1)) /\ ("proc"%string ∉ (kwargs.*1))).
Proof.
  induction kwargs as [| [k v] rest IH]; simpl.
  - split; [intros _; split; apply not_elem_of_nil | reflexivity].
  - unfold mem_str, apply_params. simpl.
    rewrite !not_elem_of_cons.
    destruct (String.eqb_spec k "self") as [-> | Hself]; simpl.
    { split; [discriminate | intros [[H _] _]; congruence]. }
    destruct (String.eqb_spec k "proc") as [-> | Hproc]; simpl.
    { split; [discriminate | intros [_ [H _]]; congruence]. }
    rewrite IH. split; [intros [H1 H2] | intros [[_ H1] [_ H2]]];
      repeat split; auto.
Qed.

(** C7, as the claim states it, fails: a keyword argument named [proc] is a
    second value for [apply]'s own parameter, so the call raises
    [TypeError] and the procedure, which would have returned, is not
    called. *)
Lemma apply_rejects_keyword_proc :
  Dataset.apply Sample.direct2 Sample.count_args []
    [("proc"%string, ObjVal PyNone)] Sample.world0
  = (inl (TypeError
            "PymuDocDataset.apply() got multiple values for argument 'proc'"),
     Sample.world0)
  /\ Sample.count_args [ObjDataset Sample.direct2]
       [("proc"%string, ObjVal PyNone)] Sample.world0
     = (inr (ObjVal (PyInt 1)), Sample.world0)
  /\ Dataset.apply Sample.direct2 Sample.count_args []
       [("proc"%string, ObjVal PyNone)] Sample.world0
     <> Sample.count_args [ObjDataset Sample.direct2]
          [("proc"%string, ObjVal PyNone)] Sample.world0.
Proof. repeat split. discriminate. Qed.

(** C7 (amended): when no keyword argument is named [self] or [proc],
    [apply] is the call of the procedure with the dataset put in front of
    the positional arguments and the keyword arguments passed on, and the
    two classes' implementations are the same function; a keyword argument
    with one of these two names makes either implementation raise
    [TypeError] without calling the procedure. *)
Theorem apply_prepends_self (d : Dataset) (proc : Callable)
  (args : list PyObj) (kwargs : list (string * PyObj)) :
  ("self"%string ∉ (kwargs.*1) -> "proc"%string ∉ (kwargs.*1) ->
   Dataset.apply d proc args kwargs = proc (ObjDataset d :: args) kwargs
   /\ PymuDocDataset.apply d proc args kwargs
      = ImageDataset.apply d proc args kwargs)
  /\ ("self"%string ∈ (kwargs.*1) \/ "proc"%string ∈ (kwargs.*1) ->
      forall w,
        exists msg,
          Dataset.apply d proc args kwargs w = (inl (TypeError msg), w)
          /\ exists msg1 msg2,
              PymuDocDataset.apply d proc args kwargs w
              = (inl (TypeError msg1), w)
              /\ ImageDataset.apply d proc args kwargs w
                 = (inl (TypeError msg2), w)).
Proof.
  unfold Dataset.apply, PymuDocDataset.apply, ImageDataset.apply,
    bind_apply_kwargs.
  split.
  - intros Hself Hproc.
    assert (Hnone : keyword_clash kwargs = None)
      by (apply keyword_clash_none; auto).
    rewrite Hnone. split; [destruct (ds_class d) |]; reflexivity.
  - intros Hclash w.
    destruct (keyword_clash kwargs) as [name |] eqn:Hk.
    + unfold bind, lift.
      destruct (ds_class d); eexists;
        (split; [reflexivity | do 2 eexists; split; reflexivity]).
    + apply keyword_clash_none in Hk. tauto.
Qed.

(** A keyword the signature does not claim, and the keyword [self]. *)
Lemma apply_prepends_self_witness :
  Dataset.apply Sample.converted1 Sample.count_args [ObjVal (PyInt 200)]
    [("lang"%string, ObjVal (PyStr "en"))]
  = Sample.count_args [ObjDataset Sample.converted1; ObjVal (PyInt 200)]
      [("lang"%string, ObjVal (PyStr "en"))]
  /\ exists msg,
      Dataset.apply Sample.converted1 Sample.count_args []
        [("lang"%string, ObjVal (PyStr "en")); ("self"%string, ObjVal PyNone)]
        Sample.world0
      = (inl (TypeError msg), Sample.world0).
Proof.
  split.
  - apply (proj1 (apply_prepends_self Sample.converted1 Sample.count_args
                    [ObjVal (PyInt 200)]
                    [("lang"%string, ObjVal (PyStr "en"))])).
    + rewrite list_elem_of_In. simpl. intuition discriminate.
    + rewrite list_elem_of_In. simpl. intuition discriminate.
  - destruct (proj2 (apply_prepends_self Sample.converted1 Sample.count_args
                       []
                       [("lang"%string, ObjVal (PyStr "en"));
                        ("self"%string, ObjVal PyNone)])
                ltac:(left; rewrite list_elem_of_In; simpl; auto)
                Sample.world0) as (msg & Hmsg & _).
    exists msg. exact Hmsg.
Defined.

(** What a successful construction establishes. *)
Lemma PymuDocDataset_init_inv {ext : Externals} (bits : bytes)
  (w w' : World) (d : Dataset) :
  PymuDocDataset.__init__ bits w = (inr d, w') ->
  ds_class d = PymuDocDatasetClass
  /\ fitz_open_pdf bits = inr (_raw_fitz d)
  /\ _records d = map Doc.__init__ (_raw_fitz d)
  /\ _data_bits d = bits /\ _raw_data d = bits.
Proof.
  unfold PymuDocDataset.__init__, call, bind, emit, lift, ret. simpl.
  destruct (fitz_open_pdf bits) as [e | raw]; intros Heq;
    inversion Heq; subst; simpl; auto.
Qed.

Lemma ImageDataset_init_inv {ext : Externals} (bits : bytes)
  (w w' : World) (d : Dataset) :
  ImageDataset.__init__ bits w = (inr d, w') ->
  ds_class d = ImageDatasetClass
  /\ (exists image, fitz_open_stream bits = inr image
                    /\ fitz_convert_to_pdf image = inr (_data_bits d))
  /\ fitz_open_pdf (_data_bits d) = inr (_raw_fitz d)
  /\ _records d = map Doc.__init__ (_raw_fitz d)
  /\ _raw_data d = bits.
Proof.
  unfold ImageDataset.__init__, call, bind, emit, lift, ret. simpl.
  destruct (fitz_open_stream bits) as [e | image]; [discriminate |].
  destruct (fitz_convert_to_pdf image) as [e | pdf_bytes] eqn:Hconv;
    [discriminate |].
  destruct (fitz_open_pdf pdf_bytes) as [e | raw] eqn:Hopen;
    [discriminate |].
  intros Heq; inversion Heq; subst; simpl.
  repeat split; auto. exists image. auto.
Qed.

(** C5: [classify] on a converted dataset returns OCR and leaves the world
    as it was, so the classifier is not called; on a direct dataset it is
    one call of the classifier on the dataset's bytes, whose outcome it
    returns. *)
Theorem classify_by_variant {ext : Externals} (d : Dataset) (w : World) :
  (ds_class d = ImageDatasetClass -> Dataset.classify d w = (inr OCR, w))
  /\ (ds_class d = PymuDocDatasetClass ->
      Dataset.classify d w
      = (filter_classify (Dataset.data_bits d),
         {| fs := fs w;
            trace := trace w ++ [CallClassify (Dataset.data_bits d)] |})).
Proof.
  unfold Dataset.classify, Dataset.data_bits.
  split; intros ->; reflexivity.
Qed.

(** The two sample datasets in the empty world. *)
Lemma classify_by_variant_witness :
  Dataset.classify (ext := Sample.externals) Sample.converted1 Sample.world0
  = (inr OCR, Sample.world0)
  /\ Dataset.classify (ext := Sample.externals) Sample.direct2 Sample.world0
     = (inr TXT,
        {| fs := fs Sample.world0;
           trace := [CallClassify Sample.pdf2] |}).
Proof.
  split.
  - apply (proj1 (classify_by_variant (ext := Sample.externals)
                    Sample.converted1 Sample.world0)).
    reflexivity.
  - apply (proj2 (classify_by_variant (ext := Sample.externals)
                    Sample.direct2 Sample.world0)).
    reflexivity.
Defined.

(** C6: a direct dataset built from [bits] gives [bits] back unchanged.  A
    converted dataset built from image bytes gives back what the conversion
    to a paged document produced; those bytes are a paged document and the
    input is not, so they differ from the input, which the accessor does
    not return. *)
Theorem data_bits_by_variant {ext : Externals}
  (is_paged_document : bytes -> bool)
  (Hconvert : forall image pdf_bytes,
      fitz_convert_to_pdf image = inr pdf_bytes ->
      is_paged_document pdf_bytes = true)
  (bits : bytes) (w w' : World) (d : Dataset) :
  (PymuDocDataset.__init__ bits w = (inr d, w') ->
   Dataset.data_bits d = bits)
  /\ (ImageDataset.__init__ bits w = (inr d, w') ->
      is_paged_document bits = false ->
      (exists image, fitz_open_stream bits = inr image
                     /\ fitz_convert_to_pdf image = inr (Dataset.data_bits d))
      /\ Dataset.data_bits d <> bits
      /\ _raw_data d = bits).
Proof.
  split.
  - intros Hinit.
    destruct (PymuDocDataset_init_inv _ _ _ _ Hinit) as (Hc & _ & _ & Hb & _).
    unfold Dataset.data_bits. rewrite Hc. exact Hb.
  - intros Hinit Himage.
    destruct (ImageDataset_init_inv _ _ _ _ Hinit)
      as (Hc & (image & Hopen & Hconv) & _ & _ & Hraw).
    assert (Hd : Dataset.data_bits d = _data_bits d)
      by (unfold Dataset.data_bits; rewrite Hc; reflexivity).
    rewrite Hd. split; [exists image; auto |]. split; [| exact Hraw].
    intros Heq. apply Hconvert in Hconv. congruence.
Qed.

(** The sample engine: its conversions start with the paged-document
    header, the sample image does not. *)
Lemma data_bits_by_variant_witness :
  Dataset.data_bits Sample.direct2 = Sample.pdf2
  /\ Dataset.data_bits Sample.converted1 <> Sample.png
  /\ _raw_data Sample.converted1 = Sample.png.
Proof.
  assert (Hconvert : forall image pdf_bytes,
             fitz_convert_to_pdf (Externals := Sample.externals) image
             = inr pdf_bytes -> Sample.is_pdf pdf_bytes = true).
  { intros image pdf_bytes Heq. inversion Heq. reflexivity. }
  split.
  - apply (proj1 (data_bits_by_variant (ext := Sample.externals)
                    Sample.is_pdf Hconvert Sample.pdf2 Sample.world0
                    {| fs := fs Sample.world0;
                       trace := [CallFitzOpenPdf Sample.pdf2] |}
                    Sample.direct2)).
    reflexivity.
  - apply (proj2 (data_bits_by_variant (ext := Sample.externals)
                    Sample.is_pdf Hconvert Sample.png Sample.world0
                    (snd (ImageDataset.__init__ (ext := Sample.externals)
                            Sample.png Sample.world0))
                    Sample.converted1)); reflexivity.
Defined.

(** ** The page handle *)

Lemma defined_not_doc (name : string) :
  Doc.defined name = false -> String.eqb name "_doc" = false.
Proof.
  unfold Doc.defined, Doc.instance_attrs, mem_str. simpl.
  destruct (String.eqb name "_doc"); [discriminate | reflexivity].
Qed.

(** C10: for a name the normal lookup does not find on the handle, the
    lookup gives the underlying page's attribute when the page has one, and
    [None], without raising, when the page has none either. *)
Theorem getattr_falls_back_to_page (doc : Doc) (name : string) :
  Doc.defined name = false ->
  (forall v, page_attrs (_doc doc) !! name = Some v ->
             page_getattr (_doc doc) name = inr v
             /\ Doc.getattribute doc name = inr (ObjVal v))
  /\ (page_attrs (_doc doc) !! name = None ->
      page_getattr (_doc doc) name = inl (AttributeError name)
      /\ Doc.getattribute doc name = inr (ObjVal PyNone)).
Proof.
  intros Hundef. pose proof (defined_not_doc name Hundef) as Hne.
  unfold Doc.getattribute, Doc.__getattr__, page_getattr, hasattr_of.
  rewrite Hne, Hundef.
  split; [intros v Hv | intros Hv]; rewrite Hv; split; reflexivity.
Qed.

(** A name the sample page answers to, and one it does not. *)
Lemma getattr_falls_back_to_page_witness :
  Doc.getattribute (Doc.__init__ (Sample.page 7)) "number"
  = inr (ObjVal (PyInt 7))
  /\ Doc.getattribute (Doc.__init__ (Sample.page 7)) "no_such_attribute"
     = inr (ObjVal PyNone).
Proof.
  split.
  - apply (proj1 (getattr_falls_back_to_page
                    (Doc.__init__ (Sample.page 7)) "number" eq_refl)).
    reflexivity.
  - apply (proj2 (getattr_falls_back_to_page
                    (Doc.__init__ (Sample.page 7)) "no_such_attribute"
                    eq_refl)).
    reflexivity.
Defined.

(** ** Paths without a directory component *)

Lemma rsplit_sep_no_sep (p : string) :
  PosixPath.has_sep p = false -> PosixPath.rsplit_sep p = (EmptyString, p).
Proof.
  induction p as [| c s IH]; simpl; [reflexivity |].
  destruct (Ascii.eqb c PosixPath.sep) eqn:Hc; simpl; [discriminate |].
  intros Hs. rewrite (IH Hs). reflexivity.
Qed.

Lemma rsplit_sep_has_sep (p : string) :
  PosixPath.has_sep p = true ->
  PosixPath.is_empty (fst (PosixPath.rsplit_sep p)) = false.
Proof.
  induction p as [| c s IH]; simpl; [discriminate |].
  destruct (PosixPath.rsplit_sep s) as [h t] eqn:Hsplit.
  destruct h as [| c' h']; [| reflexivity].
  destruct (Ascii.eqb c PosixPath.sep) eqn:Hc; simpl; [reflexivity |].
  intros Hs. specialize (IH Hs). discriminate.
Qed.

Lemma rstrip_sep_empty (s : string) :
  PosixPath.rstrip_sep s = EmptyString -> PosixPath.all_sep s = true.
Proof.
  induction s as [| c s IH]; simpl; [reflexivity |].
  destruct (PosixPath.rstrip_sep s) as [| c' r]; [| discriminate].
  destruct (Ascii.eqb c PosixPath.sep); [| discriminate].
  intros _. simpl. apply IH. reflexivity.
Qed.

(** [os.path.dirname(p)] is the empty string exactly when [p] has no
    separator, and then [os.path.basename(p)] is [p]. *)
Lemma dirname_empty_iff (p : string) :
  PosixPath.dirname p = EmptyString <-> PosixPath.has_sep p = false.
Proof.
  unfold PosixPath.dirname, PosixPath.split. split.
  - intros Hdir. destruct (PosixPath.has_sep p) eqn:Hs; [| reflexivity].
    pose proof (rsplit_sep_has_sep p Hs) as Hne.
    destruct (PosixPath.rsplit_sep p) as [h t]. simpl in Hne.
    rewrite Hne in Hdir. simpl in Hdir.
    destruct (PosixPath.all_sep h) eqn:Hall; simpl in Hdir.
    + subst h. discriminate.
    + apply rstrip_sep_empty in Hdir. congruence.
  - intros Hs. rewrite (rsplit_sep_no_sep p Hs). reflexivity.
Qed.

Lemma basename_no_sep (p : string) :
  PosixPath.has_sep p = false -> PosixPath.basename p = p.
Proof.
  intros Hs. unfold PosixPath.basename.
  rewrite (rsplit_sep_no_sep p Hs). reflexivity.
Qed.

(** ** The file system operations leave the call log alone *)

Lemma keeps_trace_ret {A} (a : A) : keeps_trace (ret a).
Proof. intros w. reflexivity. Qed.

Lemma keeps_trace_raise {A} (e : PyExn) : keeps_trace (@raise A e).
Proof. intros w. reflexivity. Qed.

Lemma keeps_trace_get_fs : keeps_trace get_fs.
Proof. intros w. reflexivity. Qed.

Lemma keeps_trace_bind {A B} (m : M A) (k : A -> M B) :
  keeps_trace m -> (forall a, keeps_trace (k a)) -> keeps_trace (bind m k).
Proof.
  intros Hm Hk w. unfold bind. specialize (Hm w).
  destruct (m w) as [[e | a] w1]; simpl in *; [exact Hm |].
  rewrite Hk. exact Hm.
Qed.

Lemma keeps_trace_catch {A} (m : M A) (handler : PyExn -> M A) :
  keeps_trace m -> (forall e, keeps_trace (handler e)) ->
  keeps_trace (catch m handler).
Proof.
  intros Hm Hh w. unfold catch. specialize (Hm w).
  destruct (m w) as [[e | a] w1]; simpl in *; [| exact Hm].
  rewrite Hh. exact Hm.
Qed.

Lemma keeps_trace_mkdir (name : string) : keeps_trace (Os.mkdir name).
Proof.
  intros w. unfold Os.mkdir.
  repeat match goal with
         | |- context [if ?b then _ else _] => destruct b
         end; reflexivity.
Qed.

Create HintDb trace.

#[local] Hint Resolve keeps_trace_ret keeps_trace_raise keeps_trace_get_fs
  keeps_trace_mkdir : trace.

Lemma keeps_trace_makedirs_rec (fuel : nat) :
  forall name exist_ok, keeps_trace (Os.makedirs_rec fuel name exist_ok).
Proof.
  induction fuel as [| fuel IH]; intros name exist_ok; simpl.
  - apply keeps_trace_raise.
  - destruct (PosixPath.split name) as [head tail].
    destruct (if PosixPath.is_empty tail then PosixPath.split head
              else (head, tail)) as [head' tail'].
    apply keeps_trace_bind; [auto with trace |]. intros fsys.
    apply keeps_trace_bind.
    + destruct (negb (PosixPath.is_empty head')
                && negb (PosixPath.is_empty tail')
                && negb (Os.path_exists fsys head')); [| auto with trace].
      apply keeps_trace_bind; [| auto with trace].
      apply keeps_trace_catch; [apply IH |].
      intros e. destruct e; auto with trace.
    + intros [|]; [auto with trace |].
      apply keeps_trace_catch; [auto with trace |]. intros e.
      apply keeps_trace_bind; [auto with trace |]. intros fsys'.
      destruct (negb exist_ok || negb (Os.path_isdir fsys' name));
        auto with trace.
Qed.

Lemma keeps_trace_makedirs (name : string) (exist_ok : bool) :
  keeps_trace (Os.makedirs name exist_ok).
Proof. apply keeps_trace_makedirs_rec. Qed.

(** [os.makedirs('', exist_ok=True)] raises and changes nothing. *)
Lemma makedirs_empty (w : World) :
  Os.makedirs EmptyString true w = (inl (FileNotFoundError EmptyString), w).
Proof. reflexivity. Qed.

Lemma path_exists_empty (fsys : FileSystem) : Os.path_exists fsys EmptyString = false.
Proof. reflexivity. Qed.

(** ** The exporters of [PipeResult] *)

Ltac run_draw :=
  unfold PipeResult.draw_layout, PipeResult.draw_span,
    PipeResult.draw_line_sort, bind, get_fs, lift; simpl.

Section Exporters.
Context {ext : Externals}.
Implicit Types (self : PipeResult) (writer : DataWriter) (w : World).

Lemma draw_without_pdf_info self (e : PyExn) (file_path : string) w :
  getitem_str (_pipe_res self) "pdf_info" = inl e ->
  let dir_name := PosixPath.dirname file_path in
  let prepared :=
    if Os.path_exists (fs w) dir_name then (inr tt, w)
    else Os.makedirs dir_name true w in
  let out := match prepared with
             | (inr _, w') => (inl e, w')
             | (inl e', w') => (inl e', w')
             end in
  PipeResult.draw_layout self file_path w = out
  /\ PipeResult.draw_span self file_path w = out
  /\ PipeResult.draw_line_sort self file_path w = out.
Proof.
  intros Hmiss. run_draw. rewrite Hmiss.
  destruct (Os.path_exists (fs w) (PosixPath.dirname file_path)); simpl.
  - repeat split.
  - destruct (Os.makedirs (PosixPath.dirname file_path) true w)
      as [[e' | []] w']; repeat split.
Qed.

Lemma getitem_str_missing (items : list (string * pyval)) (key : string) :
  dict_get items key = None ->
  getitem_str (PyDict items) key = inl (KeyError key).
Proof. intros Hnone. simpl. rewrite Hnone. reflexivity. Qed.

(** C3 (amended): when the analysis result is a mapping without
    ['pdf_info'], [dump_md] and [dump_content_list] raise [KeyError] before
    any collaborator is called or anything is written; each overlay
    renderer first prepares the destination directory and then stops with
    [KeyError] (or with the error of the directory creation), never calling
    its rendering collaborator; [dump_middle_json] does not look for
    ['pdf_info']: it serializes the result as it is and hands the text to
    the writer. *)
Theorem exports_without_pdf_info self (items : list (string * pyval))
  writer (file_path img_prefix : string)
  (drop_mode : option DropMode) (md_make_mode : option MakeMode) w :
  _pipe_res self = PyDict items ->
  dict_get items "pdf_info" = None ->
  PipeResult.dump_md self writer file_path img_prefix drop_mode md_make_mode w
  = (inl (KeyError "pdf_info"), w)
  /\ PipeResult.dump_content_list self writer file_path img_prefix w
     = (inl (KeyError "pdf_info"), w)
  /\ stops_before_rendering (PosixPath.dirname file_path) w
       (PipeResult.draw_layout self file_path w)
  /\ stops_before_rendering (PosixPath.dirname file_path) w
       (PipeResult.draw_span self file_path w)
  /\ stops_before_rendering (PosixPath.dirname file_path) w
       (PipeResult.draw_line_sort self file_path w)
  /\ PipeResult.dump_middle_json self writer file_path w
     = match json_dumps (PyDict items) false (Some 4%Z) with
       | inl e => (inl e, w)
       | inr text =>
           (write_string writer file_path (PyStr text),
            log (CallWriteString file_path (PyStr text)) w)
       end.
Proof.
  intros Hdict Hnone.
  pose proof (getitem_str_missing items "pdf_info" Hnone) as Hmiss.
  rewrite <- Hdict in Hmiss.
  assert (Hstop : forall out,
             out = match (if Os.path_exists (fs w)
                               (PosixPath.dirname file_path)
                          then (inr tt, w)
                          else Os.makedirs (PosixPath.dirname file_path)
                                 true w) with
                   | (inr _, w') => (inl (KeyError "pdf_info"), w')
                   | (inl e', w') => (inl e', w')
                   end ->
             stops_before_rendering (PosixPath.dirname file_path) w out).
  { intros out ->. unfold stops_before_rendering.
    pose proof (keeps_trace_makedirs (PosixPath.dirname file_path) true w)
      as Htr.
    destruct (Os.path_exists (fs w) (PosixPath.dirname file_path)).
    - split; reflexivity.
    - destruct (Os.makedirs (PosixPath.dirname file_path) true w)
        as [[e' | []] w']; simpl in *; split; auto. }
  destruct (draw_without_pdf_info self _ file_path w Hmiss)
    as (Hlayout & Hspan & Hsort).
  split; [| split; [| split; [| split; [| split]]]].
  - unfold PipeResult.dump_md, bind, lift. rewrite Hmiss. reflexivity.
  - unfold PipeResult.dump_content_list, bind, lift. rewrite Hmiss.
    reflexivity.
  - apply Hstop, Hlayout.
  - apply Hstop, Hspan.
  - apply Hstop, Hsort.
  - unfold PipeResult.dump_middle_json, bind, lift, call, emit. rewrite Hdict.
    destruct (json_dumps (PyDict items) false (Some 4%Z)); reflexivity.
Qed.

(** C8: with ['pdf_info'] present, [dump_content_list] calls the assembler
    once, on the page records, with [MakeMode.STANDARD_FORMAT],
    [DropMode.NONE] and the image prefix; what the assembler returns is
    serialized by [json.dumps] with [ensure_ascii=False] and [indent=4], and
    that text is what the writer receives for [file_path]. *)
Theorem dump_content_list_standard_format self writer
  (file_path img_prefix : string) (pdf_info : pyval) w :
  getitem_str (_pipe_res self) "pdf_info" = inr pdf_info ->
  let assembled := CallUnionMake pdf_info STANDARD_FORMAT NONE img_prefix in
  let out := PipeResult.dump_content_list self writer file_path img_prefix w in
  fs (snd out) = fs w
  /\ (exists rest, trace (snd out) = trace w ++ assembled :: rest)
  /\ forall content text,
      union_make pdf_info STANDARD_FORMAT NONE img_prefix = inr content ->
      json_dumps content false (Some 4%Z) = inr text ->
      out = (write_string writer file_path (PyStr text),
             log (CallWriteString file_path (PyStr text)) (log assembled w)).
Proof.
  intros Hinfo. simpl.
  unfold PipeResult.dump_content_list, bind, lift, call, emit, log.
  rewrite Hinfo. simpl. unfold bind, lift. simpl.
  destruct (union_make pdf_info STANDARD_FORMAT NONE img_prefix)
    as [e | content]; simpl.
  - split; [reflexivity |]. split; [exists []; reflexivity |].
    intros content text Hc. discriminate Hc.
  - destruct (json_dumps content false (Some 4%Z)) as [e | text] eqn:Hdumps;
      simpl.
    + split; [reflexivity |]. split; [exists []; reflexivity |].
      intros c t Hc Ht. congruence.
    + split; [reflexivity |]. split.
      * exists [CallWriteString file_path (PyStr text)].
        rewrite <- app_assoc. reflexivity.
      * intros c t Hc Ht. assert (c = content) by congruence. subst c.
        assert (t = text) by congruence. subst t. reflexivity.
Qed.

(** C9: for a path without a directory component, each overlay renderer
    raises at the creation of the directory [''], whatever the file system
    holds and whatever the result is; nothing is rendered and the world is
    as before. *)
Theorem draw_without_directory_fails self (file_path : string) w :
  PosixPath.has_sep file_path = false ->
  PosixPath.dirname file_path = EmptyString
  /\ PipeResult.draw_layout self file_path w
     = (inl (FileNotFoundError EmptyString), w)
  /\ PipeResult.draw_span self file_path w
     = (inl (FileNotFoundError EmptyString), w)
  /\ PipeResult.draw_line_sort self file_path w
     = (inl (FileNotFoundError EmptyString), w).
Proof.
  intros Hsep. apply dirname_empty_iff in Hsep.
  split; [exact Hsep |]. run_draw. rewrite Hsep. simpl.
  repeat split.
Qed.

(** C2: [get_compress_pdf_mid_data] reads the attribute [pdf_mid_data],
    which no [PipeResult] has (the result is kept in [_pipe_res]): it raises
    [AttributeError] and the compressor is never called, so no compressed
    encoding is returned. *)
Theorem get_compress_pdf_mid_data_raises self w :
  PipeResult.getattribute self "pdf_mid_data"
  = inl (AttributeError "pdf_mid_data")
  /\ PipeResult.getattribute self "_pipe_res" = inr (ObjVal (_pipe_res self))
  /\ PipeResult.get_compress_pdf_mid_data self w
     = (inl (AttributeError "pdf_mid_data"), w).
Proof.
  assert (Hattr : PipeResult.getattribute self "pdf_mid_data"
                  = inl (AttributeError "pdf_mid_data"))
    by (unfold PipeResult.getattribute; reflexivity).
  split; [exact Hattr |]. split; [reflexivity |].
  unfold PipeResult.get_compress_pdf_mid_data, bind, lift.
  rewrite Hattr. reflexivity.
Qed.

End Exporters.

(** C3, as the claim states it, fails: on a result without ['pdf_info']
    [dump_middle_json] raises nothing and hands the serialized result to
    the writer. *)
Lemma dump_middle_json_ignores_missing_pdf_info :
  getitem_str (_pipe_res Sample.empty_result) "pdf_info"
  = inl (KeyError "pdf_info")
  /\ PipeResult.dump_middle_json (ext := Sample.externals)
       Sample.empty_result Sample.writer "middle.json" Sample.world0
     = (inr tt,
        {| fs := fs Sample.world0;
           trace := [CallWriteString "middle.json" (PyStr "{}")] |}).
Proof. split; reflexivity. Qed.

(** The empty result, exported under [out/]. *)
Lemma exports_without_pdf_info_witness :
  PipeResult.dump_md (ext := Sample.externals) Sample.empty_result
    Sample.writer "out/doc.md" "images" None None Sample.world0
  = (inl (KeyError "pdf_info"), Sample.world0)
  /\ stops_before_rendering "out" Sample.world0
       (PipeResult.draw_layout (ext := Sample.externals)
          Sample.empty_result "out/doc.md" Sample.world0)
  /\ fst (PipeResult.draw_layout (ext := Sample.externals)
            Sample.empty_result "out/doc.md" Sample.world0)
     = inl (KeyError "pdf_info").
Proof.
  pose proof (exports_without_pdf_info (ext := Sample.externals)
                Sample.empty_result [] Sample.writer "out/doc.md" "images"
                None None Sample.world0 eq_refl eq_refl)
    as (Hmd & _ & Hlayout & _).
  split; [exact Hmd |]. split; [exact Hlayout |]. reflexivity.
Defined.

(** The two-page sample result. *)
Lemma dump_content_list_standard_format_witness :
  PipeResult.dump_content_list (ext := Sample.externals) Sample.result2
    Sample.writer "content_list.json" "images" Sample.world0
  = (inr tt,
     log (CallWriteString "content_list.json" (PyStr "<json>"))
       (log (CallUnionMake (PyList [PyDict []; PyDict []]) STANDARD_FORMAT
               NONE "images")
          Sample.world0)).
Proof.
  pose proof (dump_content_list_standard_format (ext := Sample.externals)
                Sample.result2 Sample.writer "content_list.json" "images"
                (PyList [PyDict []; PyDict []]) Sample.world0 eq_refl)
    as (_ & _ & Hwrite).
  exact (Hwrite (PyList [PyDict []; PyDict []]) "<json>"%string
           eq_refl eq_refl).
Defined.

(** [layout.pdf] in a world whose current directory exists. *)
Lemma draw_without_directory_fails_witness :
  PipeResult.draw_layout (ext := Sample.externals) Sample.result2
    "layout.pdf" Sample.world_cwd
  = (inl (FileNotFoundError EmptyString), Sample.world_cwd)
  /\ PipeResult.draw_line_sort (ext := Sample.externals) Sample.result2
       "layout.pdf" Sample.world_cwd
     = (inl (FileNotFoundError EmptyString), Sample.world_cwd).
Proof.
  pose proof (draw_without_directory_fails (ext := Sample.externals)
                Sample.result2 "layout.pdf" Sample.world_cwd eq_refl)
    as (_ & Hlayout & _ & Hsort).
  split; [exact Hlayout | exact Hsort].
Defined.

(** With a directory component the same call goes through: the directory
    is created and the renderer is called with the page records, the
    dataset's bytes, the directory and the file name. *)
Example draw_layout_with_directory :
  let out := PipeResult.draw_layout (ext := Sample.externals) Sample.result2
               "out/layout.pdf" Sample.world0 in
  fst out = inr tt
  /\ Os.path_isdir (fs (snd out)) "out" = true
  /\ trace (snd out)
     = [CallDrawLayoutBbox (PyList [PyDict []; PyDict []]) Sample.pdf2
          "out" "layout.pdf"].
Proof. vm_compute. auto. Qed.

Example dump_md_defaults :
  PipeResult.dump_md (ext := Sample.externals) Sample.result2 Sample.writer
    "doc.md" "images" None None Sample.world0
  = (inr tt,
     log (CallWriteString "doc.md" (PyStr "# markdown"))
       (log (CallUnionMake (PyList [PyDict []; PyDict []]) MM_MD WHOLE_PDF
               "images")
          Sample.world0)).
Proof. reflexivity. Qed.

(** ** [os.makedirs] always comes back

    The recursion of [makedirs] is on a strictly shorter path, so the fuel
    given by [Os.makedirs] is enough: [RecursionError] is never raised. *)

Lemma rsplit_sep_length (p : string) :
  String.length (fst (PosixPath.rsplit_sep p))
  + String.length (snd (PosixPath.rsplit_sep p)) = String.length p.
Proof.
  induction p as [| c s IH]; simpl; [reflexivity |].
  destruct (PosixPath.rsplit_sep s) as [h t]. simpl in IH.
  destruct h as [| c' h'].
  - destruct (Ascii.eqb c PosixPath.sep); simpl in *; lia.
  - simpl in *. lia.
Qed.

Lemma rstrip_sep_length (s : string) :
  String.length (PosixPath.rstrip_sep s) <= String.length s.
Proof.
  induction s as [| c s IH]; simpl; [lia |].
  destruct (PosixPath.rstrip_sep s) as [| c' r].
  - destruct (Ascii.eqb c PosixPath.sep); simpl in *; lia.
  - simpl in *. lia.
Qed.

Lemma split_length (p : string) :
  String.length (fst (PosixPath.split p))
  + String.length (snd (PosixPath.split p)) <= String.length p.
Proof.
  unfold PosixPath.split. pose proof (rsplit_sep_length p) as Hlen.
  destruct (PosixPath.rsplit_sep p) as [h t]. simpl in Hlen.
  destruct (negb (PosixPath.is_empty h) && negb (PosixPath.all_sep h));
    simpl; [pose proof (rstrip_sep_length h) |]; lia.
Qed.

Lemma is_empty_length (s : string) :
  PosixPath.is_empty s = false -> 0 < String.length s.
Proof. destruct s; simpl; [discriminate | lia]. Qed.

Lemma never_overflows_bind {A B} (m : M A) (k : A -> M B) :
  never_overflows m -> (forall a, never_overflows (k a)) ->
  never_overflows (bind m k).
Proof.
  intros Hm Hk w. unfold bind. specialize (Hm w).
  destruct (m w) as [[e | a] w1]; simpl in *; [congruence | apply Hk].
Qed.

Lemma never_overflows_catch {A} (m : M A) (handler : PyExn -> M A) :
  never_overflows m ->
  (forall e, e <> RecursionError -> never_overflows (handler e)) ->
  never_overflows (catch m handler).
Proof.
  intros Hm Hh w. unfold catch. specialize (Hm w).
  destruct (m w) as [[e | a] w1]; simpl in *; [| discriminate].
  apply Hh. congruence.
Qed.

Lemma never_overflows_ret {A} (a : A) : never_overflows (ret a).
Proof. intros w. discriminate. Qed.

Lemma never_overflows_raise {A} (e : PyExn) :
  e <> RecursionError -> never_overflows (@raise A e).
Proof. intros Hne w. simpl. congruence. Qed.

Lemma never_overflows_get_fs : never_overflows get_fs.
Proof. intros w. discriminate. Qed.

Lemma never_overflows_mkdir (name : string) : never_overflows (Os.mkdir name).
Proof.
  intros w. unfold Os.mkdir.
  repeat match goal with
         | |- context [if ?b then _ else _] => destruct b
         end; discriminate.
Qed.

Lemma makedirs_rec_enough_fuel (fuel : nat) :
  forall name exist_ok,
    String.length name < fuel ->
    never_overflows (Os.makedirs_rec fuel name exist_ok).
Proof.
  induction fuel as [| fuel IH]; intros name exist_ok Hfuel; [lia |].
  simpl.
  pose proof (split_length name) as Hname.
  destruct (PosixPath.split name) as [head tail]. simpl in Hname.
  assert (Hshort : forall head' tail',
             (if PosixPath.is_empty tail then PosixPath.split head
              else (head, tail)) = (head', tail') ->
             PosixPath.is_empty tail' = false ->
             String.length head' < fuel).
  { intros head' tail' Hpair Htail'. apply is_empty_length in Htail'.
    destruct (PosixPath.is_empty tail).
    - pose proof (split_length head) as Hhead. rewrite Hpair in Hhead.
      simpl in Hhead. lia.
    - inversion Hpair; subst. lia. }
  destruct (if PosixPath.is_empty tail then PosixPath.split head
            else (head, tail)) as [head' tail'].
  specialize (Hshort head' tail' eq_refl).
  apply never_overflows_bind; [apply never_overflows_get_fs |]. intros fsys.
  apply never_overflows_bind.
  - destruct (PosixPath.is_empty tail');
      [rewrite andb_false_r; apply never_overflows_ret |].
    destruct (negb (PosixPath.is_empty head') && negb false
              && negb (Os.path_exists fsys head'));
      [| apply never_overflows_ret].
    apply never_overflows_bind; [| intros; apply never_overflows_ret].
    apply never_overflows_catch; [apply IH, Hshort; reflexivity |].
    intros e He. destruct e; try apply never_overflows_ret;
      apply never_overflows_raise; congruence.
  - intros [|]; [apply never_overflows_ret |].
    apply never_overflows_catch; [apply never_overflows_mkdir |].
    intros e He.
    apply never_overflows_bind; [apply never_overflows_get_fs |].
    intros fsys'.
    destruct (negb exist_ok || negb (Os.path_isdir fsys' name));
      [apply never_overflows_raise; exact He | apply never_overflows_ret].
Qed.

Lemma makedirs_terminates (name : string) (exist_ok : bool) (w : World) :
  fst (Os.makedirs name exist_ok w) <> inl RecursionError.
Proof. apply makedirs_rec_enough_fuel. lia. Qed.

(** * Further properties of the two files *)

(** ** Datasets and the engine's document *)

Lemma lookup_map {A B} (f : A -> B) (l : list A) (i : nat) :
  map f l !! i = option_map f (l !! i).
Proof.
  revert i. induction l as [| x l IH]; intros [| i]; simpl; auto.
Qed.

Lemma map_get_doc_init (pages : FitzDoc) :
  map Doc.get_doc (map Doc.__init__ pages) = pages.
Proof. induction pages as [| p ps IH]; simpl; [| rewrite IH]; reflexivity. Qed.

Lemma iter_unfold (d : Dataset) : Dataset.__iter__ d = _records d.
Proof. unfold Dataset.__iter__. destruct (ds_class d); reflexivity. Qed.

(** X1: a direct dataset mirrors the document the engine opened: it has as
    many pages, iterating it yields one handle per page in document order,
    each wrapping that page, and constructing it was one call of the
    engine. *)
Theorem direct_dataset_mirrors_document {ext : Externals} (bits : bytes)
  (w w' : World) (d : Dataset) :
  PymuDocDataset.__init__ bits w = (inr d, w') ->
  exists pages,
    fitz_open_pdf bits = inr pages
    /\ Dataset.__len__ d = Z.of_nat (length pages)
    /\ map Doc.get_doc (Dataset.__iter__ d) = pages
    /\ w' = log (CallFitzOpenPdf bits) w.
Proof.
  unfold PymuDocDataset.__init__, call, bind, emit, lift, ret, log. simpl.
  destruct (fitz_open_pdf bits) as [e | pages]; intros Heq;
    inversion Heq; subst; clear Heq.
  exists pages. rewrite len_unfold, iter_unfold. simpl.
  rewrite length_map, map_get_doc_init. auto.
Qed.

(** The two-page sample document. *)
Lemma direct_dataset_mirrors_document_witness :
  exists pages,
    fitz_open_pdf (Externals := Sample.externals) Sample.pdf2 = inr pages
    /\ Dataset.__len__ Sample.direct2 = Z.of_nat (length pages)
    /\ map Doc.get_doc (Dataset.__iter__ Sample.direct2) = pages
    /\ log (CallFitzOpenPdf Sample.pdf2) Sample.world0
       = log (CallFitzOpenPdf Sample.pdf2) Sample.world0.
Proof.
  apply (direct_dataset_mirrors_document (ext := Sample.externals)
           Sample.pdf2 Sample.world0 _ Sample.direct2).
  reflexivity.
Defined.

(** X2: a converted dataset mirrors the document obtained by converting the
    image and opening the conversion again: its pages are that document's
    pages in order, and the construction made exactly the three engine
    calls open, convert, open. *)
Theorem converted_dataset_mirrors_conversion {ext : Externals} (bits : bytes)
  (w w' : World) (d : Dataset) :
  ImageDataset.__init__ bits w = (inr d, w') ->
  exists image pdf_bytes pages,
    fitz_open_stream bits = inr image
    /\ fitz_convert_to_pdf image = inr pdf_bytes
    /\ fitz_open_pdf pdf_bytes = inr pages
    /\ Dataset.__len__ d = Z.of_nat (length pages)
    /\ map Doc.get_doc (Dataset.__iter__ d) = pages
    /\ trace w' = trace w ++ [CallFitzOpenStream bits;
                              CallConvertToPdf image;
                              CallFitzOpenPdf pdf_bytes]
    /\ fs w' = fs w.
Proof.
  unfold ImageDataset.__init__, call, bind, emit, lift, ret. simpl.
  destruct (fitz_open_stream bits) as [e | image]; [discriminate |].
  destruct (fitz_convert_to_pdf image) as [e | pdf_bytes] eqn:Hconv;
    [discriminate |].
  destruct (fitz_open_pdf pdf_bytes) as [e | pages] eqn:Hopen;
    [discriminate |].
  intros Heq; inversion Heq; subst; clear Heq. simpl.
  exists image, pdf_bytes, pages. rewrite len_unfold, iter_unfold. simpl.
  rewrite length_map, map_get_doc_init, <- !app_assoc. simpl. auto 10.
Qed.

(** The sample image: one page after conversion. *)
Lemma converted_dataset_mirrors_conversion_witness :
  exists image pdf_bytes pages,
    fitz_open_stream (Externals := Sample.externals) Sample.png = inr image
    /\ fitz_convert_to_pdf (Externals := Sample.externals) image
       = inr pdf_bytes
    /\ fitz_open_pdf (Externals := Sample.externals) pdf_bytes = inr pages
    /\ Dataset.__len__ Sample.converted1 = Z.of_nat (length pages)
    /\ map Doc.get_doc (Dataset.__iter__ Sample.converted1) = pages
    /\ trace (snd (ImageDataset.__init__ (ext := Sample.externals)
                     Sample.png Sample.world0))
       = trace Sample.world0 ++ [CallFitzOpenStream Sample.png;
                                 CallConvertToPdf image;
                                 CallFitzOpenPdf pdf_bytes]
    /\ fs (snd (ImageDataset.__init__ (ext := Sample.externals)
                  Sample.png Sample.world0))
       = fs Sample.world0.
Proof.
  apply (converted_dataset_mirrors_conversion (ext := Sample.externals)
           Sample.png Sample.world0 _ Sample.converted1).
  reflexivity.
Defined.

(** X3: the construction of a converted dataset stops at the first engine
    call that raises, with that exception and without making the later
    calls: a failed decoding or conversion never yields a dataset. *)
Theorem image_dataset_init_fails_fast {ext : Externals} (bits : bytes)
  (w : World) :
  (forall e, fitz_open_stream bits = inl e ->
     ImageDataset.__init__ bits w
     = (inl e, log (CallFitzOpenStream bits) w))
  /\ (forall image e,
        fitz_open_stream bits = inr image ->
        fitz_convert_to_pdf image = inl e ->
        ImageDataset.__init__ bits w
        = (inl e,
           log (CallConvertToPdf image) (log (CallFitzOpenStream bits) w)))
  /\ (forall image pdf_bytes e,
        fitz_open_stream bits = inr image ->
        fitz_convert_to_pdf image = inr pdf_bytes ->
        fitz_open_pdf pdf_bytes = inl e ->
        ImageDataset.__init__ bits w
        = (inl e,
           log (CallFitzOpenPdf pdf_bytes)
             (log (CallConvertToPdf image)
                (log (CallFitzOpenStream bits) w))))
  /\ (is_ok (fst (ImageDataset.__init__ bits w)) = true ->
      exists image pdf_bytes pages,
        fitz_open_stream bits = inr image
        /\ fitz_convert_to_pdf image = inr pdf_bytes
        /\ fitz_open_pdf pdf_bytes = inr pages).
Proof.
  unfold ImageDataset.__init__, call, bind, emit, lift, ret, log. simpl.
  split; [intros e -> ; reflexivity |].
  split; [intros image e -> ; simpl; intros -> ; reflexivity |].
  split; [intros image pdf_bytes e -> ; simpl; intros -> ; simpl;
          intros -> ; reflexivity |].
  destruct (fitz_open_stream bits) as [e | image]; [discriminate |]. simpl.
  destruct (fitz_convert_to_pdf image) as [e | pdf_bytes] eqn:Hconv;
    [discriminate |]. simpl.
  destruct (fitz_open_pdf pdf_bytes) as [e | pages] eqn:Hopen;
    [discriminate |].
  intros _. exists image, pdf_bytes, pages. auto.
Qed.

(** Empty input: the sample engine refuses to open it. *)
Lemma image_dataset_init_fails_fast_witness :
  ImageDataset.__init__ (ext := Sample.externals) [] Sample.world0
  = (inl (ExternalError "cannot open empty document"),
     log (CallFitzOpenStream []) Sample.world0).
Proof.
  apply (proj1 (image_dataset_init_fails_fast (ext := Sample.externals)
                  [] Sample.world0)).
  reflexivity.
Defined.

(** X6: on a dataset built by either constructor, [get_page(i)] for
    [0 <= i < n] is the handle wrapping page [i] of the engine's document,
    and [get_page(i - n)] is the same handle. *)
Theorem get_page_wraps_engine_page {ext : Externals} (bits : bytes)
  (w w' : World) (d : Dataset) (i : Z) :
  PymuDocDataset.__init__ bits w = (inr d, w')
  \/ ImageDataset.__init__ bits w = (inr d, w') ->
  (0 <= i < Dataset.__len__ d)%Z ->
  exists page,
    _raw_fitz d !! Z.to_nat i = Some page
    /\ Dataset.get_page d i = inr (Doc.__init__ page)
    /\ Dataset.get_page d (i - Dataset.__len__ d) = inr (Doc.__init__ page)
    /\ Doc.get_doc (Doc.__init__ page) = page.
Proof.
  intros Hinit Hi.
  assert (Hrec : _records d = map Doc.__init__ (_raw_fitz d)).
  { destruct Hinit as [Hinit | Hinit].
    - apply PymuDocDataset_init_inv in Hinit. tauto.
    - apply ImageDataset_init_inv in Hinit. tauto. }
  rewrite len_unfold in *. rewrite !get_page_unfold.
  destruct (list_getitem_nonneg (_records d) i Hi) as (doc & Hlook & Hget).
  rewrite Hrec, lookup_map in Hlook.
  unfold option_map in Hlook.
  match type of Hlook with
  | context [match ?t with _ => _ end] =>
      destruct t as [page |] eqn:Hpage; [| discriminate Hlook]
  end.
  inversion Hlook; subst doc. exists page.
  split; [exact Hpage |]. split; [exact Hget |]. split; [| reflexivity].
  destruct (list_getitem_wraps (_records d)
              (i - Z.of_nat (length (_records d)))) as [Heq | Hlow];
    [lia | | lia].
  rewrite Heq.
  replace (Z.of_nat (length (_records d))
           + (i - Z.of_nat (length (_records d))))%Z with i by lia.
  exact Hget.
Qed.

Lemma get_page_wraps_engine_page_witness :
  exists page,
    _raw_fitz Sample.direct2 !! Z.to_nat 1 = Some page
    /\ Dataset.get_page Sample.direct2 1 = inr (Doc.__init__ page)
    /\ Dataset.get_page Sample.direct2 (1 - Dataset.__len__ Sample.direct2)
       = inr (Doc.__init__ page)
    /\ Doc.get_doc (Doc.__init__ page) = page.
Proof.
  apply (get_page_wraps_engine_page (ext := Sample.externals) Sample.pdf2
           Sample.world0 (log (CallFitzOpenPdf Sample.pdf2) Sample.world0)).
  - left. reflexivity.
  - change (Dataset.__len__ Sample.direct2) with 2%Z. lia.
Defined.

(** X7: [get_page(i)] returns a page exactly when [-n <= i < n]; on an
    empty dataset it raises for every index. *)
Theorem get_page_succeeds_iff_in_range (d : Dataset) (i : Z) :
  (is_ok (Dataset.get_page d i) = true
   <-> (- Dataset.__len__ d <= i < Dataset.__len__ d)%Z)
  /\ (Dataset.__len__ d = 0%Z <->
      forall j, Dataset.get_page d j = inl IndexError).
Proof.
  rewrite len_unfold. split.
  - rewrite get_page_unfold. split.
    + intros Hok.
      destruct (Z.lt_ge_cases i (- Z.of_nat (length (_records d))))
        as [Hlow | Hlo].
      { rewrite list_getitem_out_of_range in Hok by lia. discriminate. }
      destruct (Z.lt_ge_cases i (Z.of_nat (length (_records d))))
        as [Hhi | Hhigh]; [lia |].
      rewrite list_getitem_out_of_range in Hok by lia. discriminate.
    + intros [Hlo Hhi]. destruct (Z.lt_ge_cases i 0) as [Hneg | Hpos].
      * destruct (list_getitem_negative (_records d) i) as (x & _ & ->);
          [lia | reflexivity].
      * destruct (list_getitem_nonneg (_records d) i) as (x & _ & ->);
          [lia | reflexivity].
  - split.
    + intros Hempty j. rewrite get_page_unfold.
      apply list_getitem_out_of_range. lia.
    + intros Hall. specialize (Hall 0%Z). rewrite get_page_unfold in Hall.
      destruct (_records d) as [| x l]; [reflexivity | discriminate].
Qed.

(** ** Splitting a path and putting it together again *)

Lemma append_nil_l (t : string) : String.append EmptyString t = t.
Proof. reflexivity. Qed.

Lemma append_cons (c : ascii) (h t : string) :
  String.append (String c h) t = String c (String.append h t).
Proof. reflexivity. Qed.

Lemma rsplit_sep_app (p : string) :
  String.append (fst (PosixPath.rsplit_sep p)) (snd (PosixPath.rsplit_sep p))
  = p.
Proof.
  induction p as [| c s IH]; simpl; [reflexivity |].
  destruct (PosixPath.rsplit_sep s) as [h t]. simpl in IH.
  destruct h as [| c' h'].
  - rewrite append_nil_l in IH. subst t.
    destruct (Ascii.eqb c PosixPath.sep); reflexivity.
  - simpl. rewrite append_cons, IH. reflexivity.
Qed.

Lemma rsplit_sep_tail_no_sep (p : string) :
  PosixPath.has_sep (snd (PosixPath.rsplit_sep p)) = false.
Proof.
  induction p as [| c s IH]; simpl; [reflexivity |].
  destruct (PosixPath.rsplit_sep s) as [h t] eqn:Hsplit. simpl in IH.
  destruct h as [| c' h']; [| exact IH].
  pose proof (rsplit_sep_app s) as Happ. rewrite Hsplit in Happ.
  simpl in Happ. rewrite append_nil_l in Happ. subst t.
  destruct (Ascii.eqb c PosixPath.sep) eqn:Hc; simpl; [exact IH |].
  rewrite Hc. exact IH.
Qed.

Lemma rstrip_sep_app (s : string) :
  exists seps, PosixPath.all_sep seps = true
               /\ s = String.append (PosixPath.rstrip_sep s) seps.
Proof.
  induction s as [| c s (seps & Hall & IH)]; simpl.
  - exists EmptyString. auto.
  - destruct (PosixPath.rstrip_sep s) as [| c' r].
    + rewrite append_nil_l in IH. subst s.
      destruct (Ascii.eqb c PosixPath.sep) eqn:Hc.
      * exists (String c seps). simpl. rewrite Hc, Hall. auto.
      * exists seps. auto.
    + exists seps. split; [exact Hall |].
      rewrite append_cons. congruence.
Qed.

Lemma append_assoc (a b c : string) :
  String.append (String.append a b) c = String.append a (String.append b c).
Proof.
  induction a as [| x a IH]; [reflexivity |].
  rewrite !append_cons, IH. reflexivity.
Qed.

Lemma split_snd (p : string) :
  snd (PosixPath.split p) = PosixPath.basename p.
Proof.
  unfold PosixPath.split, PosixPath.basename.
  destruct (PosixPath.rsplit_sep p) as [h t].
  destruct (negb (PosixPath.is_empty h) && negb (PosixPath.all_sep h));
    reflexivity.
Qed.

(** X17: the two pieces the overlay renderers receive put the path back
    together: [file_path] is [dir_name], then separators only, then
    [base_name], and [base_name] holds no separator. *)
Theorem dirname_basename_rejoin (file_path : string) :
  PosixPath.has_sep (PosixPath.basename file_path) = false
  /\ exists seps,
      PosixPath.all_sep seps = true
      /\ file_path
         = String.append (PosixPath.dirname file_path)
             (String.append seps (PosixPath.basename file_path)).
Proof.
  split; [apply rsplit_sep_tail_no_sep |].
  unfold PosixPath.dirname, PosixPath.basename, PosixPath.split.
  pose proof (rsplit_sep_app file_path) as Happ.
  destruct (PosixPath.rsplit_sep file_path) as [h t]. simpl in Happ.
  destruct (negb (PosixPath.is_empty h) && negb (PosixPath.all_sep h));
    simpl.
  - destruct (rstrip_sep_app h) as (seps & Hall & Hh).
    exists seps. split; [exact Hall |].
    rewrite <- append_assoc, <- Hh. symmetry. exact Happ.
  - exists EmptyString. split; [reflexivity |].
    rewrite append_nil_l. symmetry. exact Happ.
Qed.

Example rejoin_double_sep :
  PosixPath.dirname "out//layout.pdf" = "out"%string
  /\ PosixPath.basename "out//layout.pdf" = "layout.pdf"%string.
Proof. split; reflexivity. Qed.

(** What [os.path.dirname] can return: nothing, separators only, or a path
    that does not end with a separator. *)
Lemma ends_with_sep_rstrip (s : string) :
  ends_with_sep (PosixPath.rstrip_sep s) = false.
Proof.
  induction s as [| c s IH]; simpl; [reflexivity |].
  destruct (PosixPath.rstrip_sep s) as [| c' r].
  - destruct (Ascii.eqb c PosixPath.sep) eqn:Hc; simpl; auto.
  - exact IH.
Qed.

Lemma rsplit_sep_tail_nonempty (s : string) :
  PosixPath.is_empty s = false -> ends_with_sep s = false ->
  PosixPath.is_empty (snd (PosixPath.rsplit_sep s)) = false.
Proof.
  induction s as [| c s IH]; simpl; [discriminate |]. intros _.
  destruct s as [| c' s'].
  - simpl. intros ->. reflexivity.
  - intros Hend. specialize (IH eq_refl Hend).
    destruct (PosixPath.rsplit_sep (String c' s')) as [h t]. simpl in IH.
    destruct h as [| c'' h'']; [| exact IH].
    destruct (Ascii.eqb c PosixPath.sep); reflexivity.
Qed.

Lemma dirname_shape (p : string) :
  PosixPath.is_empty (PosixPath.dirname p) = false ->
  PosixPath.all_sep (PosixPath.dirname p) = false ->
  PosixPath.is_empty (PosixPath.basename (PosixPath.dirname p)) = false.
Proof.
  unfold PosixPath.dirname at 1 2 3, PosixPath.split.
  destruct (PosixPath.rsplit_sep p) as [h t].
  destruct (PosixPath.is_empty h) eqn:Hemp; simpl; [congruence |].
  destruct (PosixPath.all_sep h) eqn:Hall; simpl; [congruence |].
  intros Hne _. unfold PosixPath.basename.
  apply rsplit_sep_tail_nonempty; [exact Hne | apply ends_with_sep_rstrip].
Qed.

Lemma dirname_dot_prefix (name : string) :
  PosixPath.has_sep name = false ->
  PosixPath.dirname (String.append "./" name) = "."%string
  /\ PosixPath.dirname (String.append "../" name) = ".."%string.
Proof.
  intros Hsep. unfold PosixPath.dirname, PosixPath.split.
  rewrite !append_cons, !append_nil_l. simpl.
  rewrite (rsplit_sep_no_sep name Hsep). split; reflexivity.
Qed.

(** ** Preparing the destination directory *)

Lemma path_exists_nonempty (fsys : FileSystem) (name : string) :
  Os.path_exists fsys name = true -> PosixPath.is_empty name = false.
Proof.
  unfold Os.path_exists. destruct (PosixPath.is_empty name);
    [discriminate | reflexivity].
Qed.

Lemma path_isdir_exists (fsys : FileSystem) (name : string) :
  Os.path_isdir fsys name = true -> Os.path_exists fsys name = true.
Proof.
  unfold Os.path_isdir, Os.path_exists.
  destruct (PosixPath.is_empty name); simpl; [discriminate |].
  destruct (PosixPath.all_sep name); simpl; [reflexivity |].
  intros ->. reflexivity.
Qed.

Lemma mkdir_existing (name : string) (w : World) :
  Os.path_exists (fs w) name = true ->
  Os.mkdir name w = (inl (FileExistsError name), w).
Proof.
  intros Hex. unfold Os.mkdir.
  rewrite (path_exists_nonempty _ _ Hex), Hex. reflexivity.
Qed.

(** With the parent in place [os.makedirs] does not recurse: it is the one
    [os.mkdir] with its handler. *)
Lemma makedirs_parent_present (name : string) (exist_ok : bool) (w : World) :
  PosixPath.is_empty (PosixPath.basename name) = false ->
  PosixPath.is_empty (PosixPath.dirname name)
  || Os.path_exists (fs w) (PosixPath.dirname name) = true ->
  Os.makedirs name exist_ok w
  = catch (Os.mkdir name)
      (fun e =>
         let* fsys' := get_fs in
         if negb exist_ok || negb (Os.path_isdir fsys' name)
         then raise e else ret tt) w.
Proof.
  rewrite <- split_snd. unfold PosixPath.dirname, Os.makedirs.
  cbn [Os.makedirs_rec].
  destruct (PosixPath.split name) as [head tail]. simpl.
  intros Htail Hparent. rewrite Htail. unfold bind at 1, get_fs at 1.
  unfold bind at 1. rewrite Htail.
  destruct (PosixPath.is_empty head); simpl in *.
  - reflexivity.
  - rewrite Hparent. reflexivity.
Qed.

Lemma makedirs_existing (name : string) (w : World) :
  PosixPath.is_empty (PosixPath.basename name) = false ->
  PosixPath.is_empty (PosixPath.dirname name)
  || Os.path_exists (fs w) (PosixPath.dirname name) = true ->
  Os.path_exists (fs w) name = true ->
  Os.makedirs name true w
  = if Os.path_isdir (fs w) name then (inr tt, w)
    else (inl (FileExistsError name), w).
Proof.
  intros Hbase Hparent Hex.
  rewrite (makedirs_parent_present name true w Hbase Hparent).
  unfold catch. rewrite (mkdir_existing name w Hex).
  unfold bind, get_fs. simpl.
  destruct (Os.path_isdir (fs w) name); reflexivity.
Qed.

(** The last step of [os.makedirs]: when it comes back without raising,
    the directory is there. *)
Lemma mkdir_or_exists_isdir (name : string) (exist_ok : bool)
  (w w' : World) :
  catch (Os.mkdir name)
    (fun e =>
       let* fsys' := get_fs in
       if negb exist_ok || negb (Os.path_isdir fsys' name)
       then raise e else ret tt) w = (inr tt, w') ->
  Os.path_isdir (fs w') name = true.
Proof.
  unfold catch, Os.mkdir, bind, get_fs.
  assert (Hhandler : forall e : PyExn,
             (if negb exist_ok || negb (Os.path_isdir (fs w) name)
              then raise e else ret tt) w = (inr tt, w') ->
             Os.path_isdir (fs w') name = true).
  { intros e. destruct exist_ok; simpl; [| discriminate].
    destruct (Os.path_isdir (fs w) name) eqn:Hdir; simpl; [| discriminate].
    intros Heq. inversion Heq; subst. exact Hdir. }
  destruct (PosixPath.is_empty name) eqn:Hemp; [apply Hhandler |].
  destruct (Os.path_exists (fs w) name); [apply Hhandler |].
  destruct (PosixPath.is_empty (PosixPath.dirname name)
            || Os.path_isdir (fs w) (PosixPath.dirname name)).
  - intros Heq. inversion Heq; subst. unfold Os.path_isdir, Os.add_dir.
    simpl. rewrite Hemp. simpl.
    rewrite bool_decide_eq_true_2 by set_solver.
    apply orb_true_r.
  - destruct (Os.path_exists (fs w) (PosixPath.dirname name));
      apply Hhandler.
Qed.

Lemma makedirs_success_isdir (name : string) (exist_ok : bool)
  (w w' : World) :
  Os.makedirs name exist_ok w = (inr tt, w') ->
  PosixPath.is_empty (PosixPath.basename name) = false ->
  PosixPath.basename name <> "."%string ->
  Os.path_isdir (fs w') name = true.
Proof.
  rewrite <- split_snd. unfold Os.makedirs. cbn [Os.makedirs_rec].
  destruct (PosixPath.split name) as [head tail]. simpl.
  intros Hrun Htail Hdot. rewrite Htail in Hrun.
  apply String.eqb_neq in Hdot.
  unfold bind at 1, get_fs at 1 in Hrun. unfold bind at 1 in Hrun.
  rewrite Htail in Hrun.
  destruct (negb (PosixPath.is_empty head) && negb false
            && negb (Os.path_exists (fs w) head)).
  - unfold bind at 1 in Hrun.
    destruct (catch (Os.makedirs_rec (String.length name) head exist_ok) _ w)
      as [[e | u] w1]; [discriminate Hrun |].
    unfold ret at 1 in Hrun. rewrite Hdot in Hrun.
    eapply mkdir_or_exists_isdir. exact Hrun.
  - unfold ret at 1 in Hrun. eapply mkdir_or_exists_isdir. exact Hrun.
Qed.

Lemma dump_to_file_unfold {ext : Externals} (d : Dataset)
  (file_path : string) :
  Dataset.dump_to_file d file_path
  = ((if negb (mem_str (PosixPath.dirname file_path)
                 [ EmptyString; "."; ".." ]%string)
      then Os.makedirs (PosixPath.dirname file_path) true else ret tt);;
     call (CallFitzSave (_raw_fitz d) file_path)
          (fitz_save (_raw_fitz d) file_path)).
Proof. unfold Dataset.dump_to_file. destruct (ds_class d); reflexivity. Qed.

(** X10: [dump_to_file] with a bare file name, or a name directly under
    [.] or [..], creates no directory: it is the one call of the engine's
    [save] on the document opened at construction, whose outcome it
    returns. *)
Theorem dump_to_file_plain_name {ext : Externals} (d : Dataset)
  (name file_path : string) (w : World) :
  PosixPath.has_sep name = false ->
  file_path = name \/ file_path = String.append "./" name
  \/ file_path = String.append "../" name ->
  Dataset.dump_to_file d file_path w
  = (fitz_save (_raw_fitz d) file_path,
     log (CallFitzSave (_raw_fitz d) file_path) w).
Proof.
  intros Hsep Hpath. rewrite dump_to_file_unfold.
  assert (Hdir : mem_str (PosixPath.dirname file_path)
                   [ EmptyString; "."; ".." ]%string = true).
  { destruct (dirname_dot_prefix name Hsep) as [Hdot Hdots].
    destruct Hpath as [-> | [-> | ->]].
    - apply dirname_empty_iff in Hsep. rewrite Hsep. reflexivity.
    - rewrite Hdot. reflexivity.
    - rewrite Hdots. reflexivity. }
  rewrite Hdir. reflexivity.
Qed.

Lemma dump_to_file_plain_name_witness :
  Dataset.dump_to_file (ext := Sample.externals) Sample.converted1
    "../doc.pdf" Sample.world0
  = (inr tt,
     log (CallFitzSave (_raw_fitz Sample.converted1) "../doc.pdf")
       Sample.world0).
Proof.
  apply (dump_to_file_plain_name (ext := Sample.externals)
           Sample.converted1 "doc.pdf" "../doc.pdf" Sample.world0).
  - reflexivity.
  - right. right. reflexivity.
Defined.

(** X18: [dump_to_file] calls the engine's [save] at most once, as its last
    action, on the dataset's own document and the path as given; when it
    does not, it raised while creating the directory and logged nothing. *)
Theorem dump_to_file_saves_at_most_once {ext : Externals} (d : Dataset)
  (file_path : string) (w : World) :
  let out := Dataset.dump_to_file d file_path w in
  (trace (snd out) = trace w /\ is_ok (fst out) = false
   /\ fst out
      = fst (Os.makedirs (PosixPath.dirname file_path) true w))
  \/ (trace (snd out) = trace w ++ [CallFitzSave (_raw_fitz d) file_path]
      /\ fst out = fitz_save (_raw_fitz d) file_path).
Proof.
  simpl. rewrite dump_to_file_unfold. unfold bind, call, emit, lift.
  destruct (negb (mem_str (PosixPath.dirname file_path)
                    [ EmptyString; "."; ".." ]%string)).
  - pose proof (keeps_trace_makedirs (PosixPath.dirname file_path) true w)
      as Htr.
    destruct (Os.makedirs (PosixPath.dirname file_path) true w)
      as [[e | []] w1]; simpl in *.
    + left. auto.
    + right. rewrite Htr. auto.
  - right. simpl. auto.
Qed.

Section Destination.
Context {ext : Externals}.
Implicit Types (self : PipeResult) (d : Dataset) (w : World).

(** X16: when the destination directory already exists (as whatever kind
    of file), an overlay renderer with ['pdf_info'] present creates nothing:
    it is the one call of its rendering collaborator on the page records,
    the dataset's bytes, the directory and the file name, whose outcome it
    returns. *)
Theorem draw_into_existing_directory self (file_path : string)
  (pdf_info : pyval) w :
  getitem_str (_pipe_res self) "pdf_info" = inr pdf_info ->
  Os.path_exists (fs w) (PosixPath.dirname file_path) = true ->
  let bits := Dataset.data_bits (_dataset self) in
  let dir_name := PosixPath.dirname file_path in
  let base_name := PosixPath.basename file_path in
  PipeResult.draw_layout self file_path w
  = (draw_layout_bbox pdf_info bits dir_name base_name,
     log (CallDrawLayoutBbox pdf_info bits dir_name base_name) w)
  /\ PipeResult.draw_span self file_path w
     = (draw_span_bbox pdf_info bits dir_name base_name,
        log (CallDrawSpanBbox pdf_info bits dir_name base_name) w)
  /\ PipeResult.draw_line_sort self file_path w
     = (draw_line_sort_bbox pdf_info bits dir_name base_name,
        log (CallDrawLineSortBbox pdf_info bits dir_name base_name) w).
Proof.
  intros Hinfo Hex. run_draw. rewrite Hex, Hinfo. simpl.
  repeat split.
Qed.

(** X11: when the path of the destination directory is taken by a regular
    file, [dump_to_file] raises [FileExistsError] and saves nothing, while
    an overlay renderer does not notice and calls its collaborator with
    that path as the directory. *)
Theorem directory_path_taken_by_file d self (file_path : string)
  (pdf_info : pyval) w :
  let dir_name := PosixPath.dirname file_path in
  Os.path_exists (fs w) dir_name = true ->
  Os.path_isdir (fs w) dir_name = false ->
  mem_str dir_name [ "."; ".." ]%string = false ->
  PosixPath.is_empty (PosixPath.dirname dir_name)
  || Os.path_exists (fs w) (PosixPath.dirname dir_name) = true ->
  getitem_str (_pipe_res self) "pdf_info" = inr pdf_info ->
  Dataset.dump_to_file d file_path w = (inl (FileExistsError dir_name), w)
  /\ PipeResult.draw_layout self file_path w
     = (draw_layout_bbox pdf_info (Dataset.data_bits (_dataset self))
          dir_name (PosixPath.basename file_path),
        log (CallDrawLayoutBbox pdf_info (Dataset.data_bits (_dataset self))
               dir_name (PosixPath.basename file_path)) w).
Proof.
  simpl. intros Hex Hdir Hdots Hparent Hinfo.
  split; [| apply (draw_into_existing_directory self file_path pdf_info w
                     Hinfo Hex)].
  pose proof (path_exists_nonempty _ _ Hex) as Hne.
  assert (Hall : PosixPath.all_sep (PosixPath.dirname file_path) = false).
  { unfold Os.path_isdir in Hdir. rewrite Hne in Hdir. simpl in Hdir.
    destruct (PosixPath.all_sep (PosixPath.dirname file_path));
      [discriminate | reflexivity]. }
  pose proof (dirname_shape file_path Hne Hall) as Hbase.
  rewrite dump_to_file_unfold.
  assert (Hmem : mem_str (PosixPath.dirname file_path)
                   [ EmptyString; "."; ".." ]%string = false).
  { unfold mem_str in *. simpl in *.
    destruct (PosixPath.dirname file_path); [discriminate | exact Hdots]. }
  rewrite Hmem. simpl. unfold bind.
  rewrite (makedirs_existing _ w Hbase Hparent Hex), Hdir. reflexivity.
Qed.

(** X12: after [dump_to_file] or an overlay renderer came back without
    raising, the destination exists: for [dump_to_file] the directory of a
    path that is not directly under the current or the parent directory is
    a directory; for the renderers the directory path exists. *)
Theorem destination_exists_after_success d self (file_path : string)
  w w' :
  let dir_name := PosixPath.dirname file_path in
  PosixPath.basename dir_name <> "."%string ->
  (Dataset.dump_to_file d file_path w = (inr tt, w') ->
   mem_str dir_name [ EmptyString; "."; ".." ]%string = false ->
   Os.path_isdir (fs w') dir_name = true)
  /\ (PipeResult.draw_layout self file_path w = (inr tt, w')
      \/ PipeResult.draw_span self file_path w = (inr tt, w')
      \/ PipeResult.draw_line_sort self file_path w = (inr tt, w') ->
      Os.path_exists (fs w') dir_name = true).
Proof.
  cbv zeta. intros Hdot.
  assert (Hmk : forall w1,
             Os.makedirs (PosixPath.dirname file_path) true w = (inr tt, w1)
             -> Os.path_isdir (fs w1) (PosixPath.dirname file_path) = true).
  { intros w1 Hrun.
    destruct (PosixPath.is_empty (PosixPath.dirname file_path)) eqn:Hemp.
    { destruct (PosixPath.dirname file_path); [| discriminate Hemp].
      rewrite makedirs_empty in Hrun. discriminate Hrun. }
    destruct (PosixPath.all_sep (PosixPath.dirname file_path)) eqn:Hall.
    { unfold Os.path_isdir. rewrite Hemp, Hall. reflexivity. }
    eapply makedirs_success_isdir;
      [exact Hrun | apply dirname_shape; assumption | exact Hdot]. }
  split.
  - rewrite dump_to_file_unfold. intros Hrun Hmem. rewrite Hmem in Hrun.
    simpl in Hrun. unfold bind, call, emit, lift in Hrun.
    destruct (Os.makedirs (PosixPath.dirname file_path) true w)
      as [[e | []] w1] eqn:Hmake; [discriminate Hrun |].
    simpl in Hrun. inversion Hrun; subst. simpl. apply Hmk. reflexivity.
  - assert (Hprep : forall (ev : pyval -> Event)
                      (render : pyval -> Res unit),
               (let* fsys := get_fs in
                (if negb (Os.path_exists fsys (PosixPath.dirname file_path))
                 then Os.makedirs (PosixPath.dirname file_path) true
                 else ret tt);;
                let* pdf_info :=
                  lift (getitem_str (_pipe_res self) "pdf_info") in
                call (ev pdf_info) (render pdf_info)) w = (inr tt, w') ->
               Os.path_exists (fs w') (PosixPath.dirname file_path) = true).
    { intros ev render. unfold bind, get_fs, call, emit, lift. simpl.
      destruct (Os.path_exists (fs w) (PosixPath.dirname file_path))
        eqn:Hex; simpl.
      - destruct (getitem_str (_pipe_res self) "pdf_info");
          [discriminate |].
        intros Hrun. inversion Hrun; subst. exact Hex.
      - destruct (Os.makedirs (PosixPath.dirname file_path) true w)
          as [[e | []] w1] eqn:Hmake; [discriminate |].
        destruct (getitem_str (_pipe_res self) "pdf_info");
          [discriminate |].
        intros Hrun. inversion Hrun; subst. simpl.
        apply path_isdir_exists, Hmk. reflexivity. }
    intros [Hrun | [Hrun | Hrun]]; eapply Hprep; exact Hrun.
Qed.

End Destination.

(** A world in which [out] is a regular file. *)
Lemma directory_path_taken_by_file_witness :
  let w := {| fs := {| fs_dirs := ∅; fs_files := {[ "out"%string ]} |};
              trace := [] |} in
  Dataset.dump_to_file (ext := Sample.externals) Sample.direct2
    "out/doc.pdf" w
  = (inl (FileExistsError "out"), w)
  /\ PipeResult.draw_layout (ext := Sample.externals) Sample.result2
       "out/doc.pdf" w
     = (inr tt,
        log (CallDrawLayoutBbox (PyList [PyDict []; PyDict []]) Sample.pdf2
               "out" "doc.pdf") w).
Proof.
  intros w.
  apply (directory_path_taken_by_file (ext := Sample.externals)
           Sample.direct2 Sample.result2 "out/doc.pdf"
           (PyList [PyDict []; PyDict []]) w); reflexivity.
Defined.

(** Dumping under a fresh directory [out/sub] creates it. *)
Lemma destination_exists_after_success_witness :
  Os.path_isdir
    (fs (snd (Dataset.dump_to_file (ext := Sample.externals) Sample.direct2
                "out/sub/doc.pdf" Sample.world0)))
    "out/sub" = true
  /\ Os.path_exists
       (fs (snd (PipeResult.draw_span (ext := Sample.externals)
                   Sample.result2 "out/sub/spans.pdf" Sample.world0)))
       "out/sub" = true.
Proof.
  split.
  - apply (proj1 (destination_exists_after_success (ext := Sample.externals)
                    Sample.direct2 Sample.result2 "out/sub/doc.pdf"
                    Sample.world0 _ ltac:(discriminate)));
      reflexivity.
  - apply (proj2 (destination_exists_after_success (ext := Sample.externals)
                    Sample.direct2 Sample.result2 "out/sub/spans.pdf"
                    Sample.world0 _ ltac:(discriminate))).
    right. left. reflexivity.
Defined.

(** ** The exporters and the writer *)

Section Writes.
Context {ext : Externals}.
Implicit Types (self : PipeResult) (writer : DataWriter) (w : World).

(** X14: with ['pdf_info'] present, [dump_md] calls the assembler once with
    the caller's modes, [MM_MD] and [WHOLE_PDF] standing in for the ones
    left out, and hands what the assembler returns to the writer as it is;
    when the assembler raises, the writer is not called. *)
Theorem dump_md_passes_modes_through self writer
  (file_path img_prefix : string) (drop_mode : option DropMode)
  (md_make_mode : option MakeMode) (pdf_info : pyval) w :
  getitem_str (_pipe_res self) "pdf_info" = inr pdf_info ->
  let drop := match drop_mode with Some m => m | None => WHOLE_PDF end in
  let mode := match md_make_mode with Some m => m | None => MM_MD end in
  let assembled := CallUnionMake pdf_info mode drop img_prefix in
  PipeResult.dump_md self writer file_path img_prefix drop_mode
    md_make_mode w
  = match union_make pdf_info mode drop img_prefix with
    | inl e => (inl e, log assembled w)
    | inr md_content =>
        (write_string writer file_path md_content,
         log (CallWriteString file_path md_content) (log assembled w))
    end.
Proof.
  intros Hinfo. cbv zeta.
  unfold PipeResult.dump_md, bind, lift, call, emit, log.
  rewrite Hinfo. simpl.
  destruct drop_mode, md_make_mode; simpl;
    match goal with
    | |- context [union_make ?a ?b ?c ?d] =>
        destruct (union_make a b c d); reflexivity
    end.
Qed.

(** X15: each of the three [dump_*] exporters calls the writer at most
    once, for [file_path]; that call, if made, is the last one logged and
    its outcome is the outcome of the export, and an export that makes no
    such call has raised. *)
Theorem exporters_write_at_most_once self writer
  (file_path img_prefix : string) (drop_mode : option DropMode)
  (md_make_mode : option MakeMode) w :
  let single_write (out : Res unit * World) :=
    exists before written,
      trace (snd out) = trace w ++ before ++ written
      /\ filter is_write before = []
      /\ ((written = [] /\ is_ok (fst out) = false)
          \/ exists content,
              written = [CallWriteString file_path content]
              /\ fst out = write_string writer file_path content) in
  single_write (PipeResult.dump_md self writer file_path img_prefix
                  drop_mode md_make_mode w)
  /\ single_write (PipeResult.dump_content_list self writer file_path
                     img_prefix w)
  /\ single_write (PipeResult.dump_middle_json self writer file_path w).
Proof.
  cbv zeta.
  unfold PipeResult.dump_md, PipeResult.dump_content_list,
    PipeResult.dump_middle_json, bind, lift, call, emit.
  split; [| split].
  - destruct (getitem_str (_pipe_res self) "pdf_info") as [e | info]; simpl.
    { exists [], []. rewrite app_nil_r. auto. }
    destruct (union_make info _ _ img_prefix) as [e | md]; simpl.
    { eexists [_], []. auto. }
    eexists [_], [_]. rewrite <- app_assoc. simpl. eauto 6.
  - destruct (getitem_str (_pipe_res self) "pdf_info") as [e | info]; simpl.
    { exists [], []. rewrite app_nil_r. auto. }
    destruct (union_make info STANDARD_FORMAT NONE img_prefix)
      as [e | content]; simpl.
    { eexists [_], []. auto. }
    destruct (json_dumps content false (Some 4%Z)) as [e | text]; simpl.
    { eexists [_], []. auto. }
    eexists [_], [_]. rewrite <- app_assoc. simpl. eauto 6.
  - destruct (json_dumps (_pipe_res self) false (Some 4%Z)) as [e | text];
      simpl.
    { exists [], []. rewrite app_nil_r. auto. }
    eexists [], [_]. simpl. eauto 6.
Qed.

End Writes.

(** The sample result, exported with the drop mode given and the make mode
    left out. *)
Lemma dump_md_passes_modes_through_witness :
  PipeResult.dump_md (ext := Sample.externals) Sample.result2 Sample.writer
    "doc.md" "images" (Some SINGLE_PAGE) None Sample.world0
  = (inr tt,
     log (CallWriteString "doc.md" (PyStr "# markdown"))
       (log (CallUnionMake (PyList [PyDict []; PyDict []]) MM_MD SINGLE_PAGE
               "images")
          Sample.world0)).
Proof.
  apply (dump_md_passes_modes_through (ext := Sample.externals)
           Sample.result2 Sample.writer "doc.md" "images"
           (Some SINGLE_PAGE) None (PyList [PyDict []; PyDict []])
           Sample.world0).
  reflexivity.
Defined.

(** The two-page sample result in a world where [out] is a directory. *)
Lemma draw_into_existing_directory_witness :
  let w := {| fs := {| fs_dirs := {[ "out"%string ]}; fs_files := ∅ |};
              trace := [] |} in
  PipeResult.draw_line_sort (ext := Sample.externals) Sample.result2
    "out/order.pdf" w
  = (inr tt,
     log (CallDrawLineSortBbox (PyList [PyDict []; PyDict []]) Sample.pdf2
            "out" "order.pdf") w).
Proof.
  intros w.
  apply (draw_into_existing_directory (ext := Sample.externals)
           Sample.result2 "out/order.pdf" (PyList [PyDict []; PyDict []]) w);
    reflexivity.
Defined.
